(** * The IDM dataset builder and the weather feature block

    A shallow embedding of [src/build_idm_dataset.py] (file selection by
    the date in the file name, the day-ahead and intraday loaders, the
    weather loader and the merge in [main]) and of the resampler and the
    feature block of [src/fetch_weather.py].

    Conventions of the embedding:
    - a [datetime64] instant is a [Z], the nanoseconds since the epoch, as
      pandas stores it; a missing cell (NaN, NaT, None) is an absent field;
    - a numeric cell is an exact rational: the rounding of binary64 is not
      modelled, and [np.sqrt] is a parameter;
    - a directory is the list of its entries, each with the table that
      [pd.read_excel] reads from it (every workbook is taken to be
      readable);
    - an uncaught exception is a [Raise], and a run that raises ends with
      the exit status 1; of what [main] and the loaders print, only the
      diagnostic of the run without intraday data is kept;
    - the file system lets the directories of the output path be created
      and the file be written, unless the path alone excludes it (it has
      no directory part, or it is the path of a directory);
    - instants carry no time zone; the names of the columns of a file are
      distinct, as [pd.read_excel] and [pd.read_csv] make them, and a row
      holds one cell per name: when a join leaves two columns with one
      name, a row keeps the cell of the left one;
    - the pandas operations the scripts call are defined in [Pandas], from
      the behaviour of pandas 2 (2.1 and later for the mean of a column of
      strings); [pd.to_datetime] on a cell and the two resampling calls of
      [resample_to_frequency] are parameters. *)

From Stdlib Require Import ZArith QArith String Ascii List Lia.
From stdpp Require Import base option list strings gmap sorting pretty.

Local Open Scope string_scope.
Local Open Scope Z_scope.

(** ** Python's [datetime.date] and [datetime.strptime(_, "%Y%m%d")] *)

Module Calendar.

Record date := mkdate { year : Z; month : Z; day : Z }.

Definition is_leap (y : Z) : bool :=
  ((y mod 4 =? 0) && negb (y mod 100 =? 0)) || (y mod 400 =? 0).

Definition days_in_month (y m : Z) : Z :=
  if m =? 2 then (if is_leap y then 29 else 28)
  else if (m =? 4) || (m =? 6) || (m =? 9) || (m =? 11) then 30
  else 31.

(** The checks of the [date] constructor (MINYEAR = 1, MAXYEAR = 9999). *)
Definition valid_date (y m d : Z) : bool :=
  (1 <=? y) && (y <=? 9999) && (1 <=? m) && (m <=? 12) &&
  (1 <=? d) && (d <=? days_in_month y m).

(** [a < b] on dates compares (year, month, day). *)
Definition date_ltb (a b : date) : bool :=
  (year a <? year b)
  || ((year a =? year b)
      && ((month a <? month b)
          || ((month a =? month b) && (day a <? day b)))).

(** The calendar date of a day number (days since 1970-01-01), which is
    what [Series.dt.date] computes from an instant. *)
Definition civil_from_days (z : Z) : date :=
  let z := z + 719468 in
  let era := z / 146097 in
  let doe := z - era * 146097 in
  let yoe := (doe - doe / 1460 + doe / 36524 - doe / 146096) / 365 in
  let y := yoe + era * 400 in
  let doy := doe - (365 * yoe + yoe / 4 - yoe / 100) in
  let mp := (5 * doy + 2) / 153 in
  let d := doy - (153 * mp + 2) / 5 + 1 in
  let m := if mp <? 10 then mp + 3 else mp - 9 in
  mkdate (if m <=? 2 then y + 1 else y) m d.

Definition ns_per_day : Z := 86400 * 1000000000.
Definition ns_per_hour : Z := 3600 * 1000000000.

Definition date_of_instant (t : Z) : date := civil_from_days (t / ns_per_day).

(** *** The format [%Y%m%d]

    [_strptime] compiles the format into the regular expression
    [(\d\d\d\d)(1[0-2]|0[1-9]|[1-9])(3[0-1]|[1-2]\d|0[1-9]|[1-9]| [1-9])],
    matches it at the start of the string, and refuses a match that
    leaves text unconverted.  Alternatives are tried in order, and a later
    alternative of the month is tried when no day follows an earlier one.
    File names are taken as ASCII. *)

Definition is_digit (c : ascii) : bool :=
  (48 <=? nat_of_ascii c)%nat && (nat_of_ascii c <=? 57)%nat.

Definition digit (c : ascii) : Z := Z.of_nat (nat_of_ascii c) - 48.

Definition in_range (lo hi : nat) (c : ascii) : bool :=
  (lo <=? nat_of_ascii c)%nat && (nat_of_ascii c <=? hi)%nat.

Definition year_token (s : string) : option (Z * string) :=
  match s with
  | String a (String b (String c (String d r))) =>
      if is_digit a && is_digit b && is_digit c && is_digit d
      then Some (1000 * digit a + 100 * digit b + 10 * digit c + digit d, r)
      else None
  | _ => None
  end.

(** One alternative [x y] of two characters, [x] in [lo1..hi1] and [y] in
    [lo2..hi2] (character codes); the value is given by [val]. *)
Definition two_chars (lo1 hi1 lo2 hi2 : nat) (val : ascii → ascii → Z)
    (s : string) : list (Z * string) :=
  match s with
  | String a (String b r) =>
      if in_range lo1 hi1 a && in_range lo2 hi2 b then [(val a b, r)] else []
  | _ => []
  end.

Definition one_char (lo hi : nat) (s : string) : list (Z * string) :=
  match s with
  | String a r => if in_range lo hi a then [(digit a, r)] else []
  | _ => []
  end.

Definition decimal2 (a b : ascii) : Z := 10 * digit a + digit b.

(** [1[0-2]|0[1-9]|[1-9]] *)
Definition month_alternatives (s : string) : list (Z * string) :=
  two_chars 49 49 48 50 decimal2 s
  ++ two_chars 48 48 49 57 decimal2 s
  ++ one_char 49 57 s.

(** [3[0-1]|[1-2]\d|0[1-9]|[1-9]| [1-9]] *)
Definition day_alternatives (s : string) : list (Z * string) :=
  two_chars 51 51 48 49 decimal2 s
  ++ two_chars 49 50 48 57 decimal2 s
  ++ two_chars 48 48 49 57 decimal2 s
  ++ one_char 49 57 s
  ++ two_chars 32 32 49 57 (λ _ b, digit b) s.

(** The first match of the expression, with the text left after it. *)
Definition match_Ymd (s : string) : option (Z * Z * Z * string) :=
  match year_token s with
  | None => None
  | Some (y, r1) =>
      head (flat_map (λ '(m, r2), fmap (λ '(d, r3), (y, m, d, r3)) (day_alternatives r2))
                     (month_alternatives r1))
  end.

(** [datetime.strptime(s, "%Y%m%d").date()], [None] for [ValueError]. *)
Definition strptime_Ymd (s : string) : option date :=
  match match_Ymd s with
  | Some (y, m, d, "") => if valid_date y m d then Some (mkdate y m d) else None
  | _ => None
  end.

End Calendar.

Import Calendar.

(** ** [build_idm_dataset.py]: the helpers on file names *)

Definition has_slash (s : string) : bool :=
  existsb (λ c, Ascii.eqb c "/"%char) (list_ascii_of_string s).

(** [os.path.basename]: what follows the last slash. *)
Fixpoint basename (s : string) : string :=
  match s with
  | EmptyString => EmptyString
  | String c r => if has_slash s then basename r else s
  end.

Definition parse_fname_date (fname : string) : option date :=
  let base := basename fname in
  let d_str := substring 0 8 base in
  strptime_Ymd d_str.

(** [str.endswith] *)
Definition endswith (s suffix : string) : bool :=
  let n := String.length s in
  let m := String.length suffix in
  (m <=? n)%nat && String.eqb (substring (n - m) m s) suffix.

(** ** The pandas operations the two scripts call *)

Module Pandas.

Inductive value :=
| Num (q : Q)
| Time (t : Z)
| Str (s : string)
| Bool (b : bool).

(** The kinds of column types the scripts tell apart: [Number] is what
    [select_dtypes(include=["number"])] keeps. *)
Inductive dtype := Number | Datetime | Object | Boolean.

Global Instance dtype_eq_dec : EqDecision dtype.
Proof. solve_decision. Defined.

(** A row maps a column name to its cell; a missing cell has no entry. *)
Abbreviation row := (gmap string value).

Record DataFrame := mkDF { columns : list (string * dtype); rows : list row }.

Inductive exn :=
| ValueError
| TypeError
| IndexError
| KeyError
| MergeError
| FileNotFoundError
| IsADirectoryError.

Inductive result (A : Type) :=
| Ok (a : A)
| Raise (e : exn).
Global Arguments Ok {A} a.
Global Arguments Raise {A} e.

Definition bind {A B} (r : result A) (k : A → result B) : result B :=
  match r with
  | Ok a => k a
  | Raise e => Raise e
  end.

Definition names (df : DataFrame) : list string := (columns df).*1.

Definition nrows (df : DataFrame) : nat := length (rows df).

(** [df.empty]: no row or no column. *)
Definition empty (df : DataFrame) : bool :=
  (nrows df =? 0)%nat || (length (columns df) =? 0)%nat.

(** [c in df.columns] *)
Definition has_column (c : string) (df : DataFrame) : bool :=
  bool_decide (c ∈ names df).

(** The instant in the cell [c] of a row, when there is one. *)
Definition instant (c : string) (r : row) : option Z :=
  match r !! c with
  | Some (Time t) => Some t
  | _ => None
  end.

(** [df[c] = ...]: the column keeps its place when it exists and is
    appended otherwise. *)
Fixpoint put_column (c : string) (t : dtype) (cols : list (string * dtype))
    : list (string * dtype) :=
  match cols with
  | [] => [(c, t)]
  | (c', t') :: rest =>
      if decide (c' = c) then (c, t) :: rest else (c', t') :: put_column c t rest
  end.

Definition put_cell (c : string) (cell : option value) (r : row) : row :=
  match cell with
  | Some v => <[c := v]> r
  | None => delete c r
  end.

Definition assign (c : string) (t : dtype) (cell : row → option value)
    (df : DataFrame) : DataFrame :=
  {| columns := put_column c t (columns df);
     rows := (λ r : row, put_cell c (cell r) r) <$> rows df |}.

(** [df.dropna(subset=[c])] *)
Definition dropna (c : string) (df : DataFrame) : DataFrame :=
  {| columns := columns df;
     rows := filter (λ r, is_Some (r !! c)) (rows df) |}.

(** [df[mask]] for a mask computed row by row. *)
Definition select (mask : row → bool) (df : DataFrame) : DataFrame :=
  {| columns := columns df; rows := filter (λ r, mask r = true) (rows df) |}.

Definition rename_row (f : string → string) (r : row) : row := kmap f r.

Definition with_names (f : string → string) (cols : list (string * dtype))
    : list (string * dtype) :=
  (λ p : string * dtype, (f p.1, p.2)) <$> cols.

(** [df.rename(columns=...)] for a mapping given as a function on names. *)
Definition rename (f : string → string) (df : DataFrame) : DataFrame :=
  {| columns := with_names f (columns df);
     rows := rename_row f <$> rows df |}.

(** *** [pd.concat(frames, ignore_index=True)]

    The columns are the union of the columns of the frames, in the order
    of first appearance; rows are appended.  A column whose frames
    disagree on the type becomes [Object]; so does a boolean column that a
    frame lacks (its missing cells are NaN). *)

Definition promote (a b : dtype) : dtype := if decide (a = b) then a else Object.

Fixpoint union_column (c : string) (t : dtype) (cols : list (string * dtype))
    : list (string * dtype) :=
  match cols with
  | [] => [(c, t)]
  | (c', t') :: rest =>
      if decide (c' = c) then (c', promote t' t) :: rest
      else (c', t') :: union_column c t rest
  end.

Definition union_columns (acc cols : list (string * dtype)) : list (string * dtype) :=
  fold_left (λ acc p, union_column p.1 p.2 acc) cols acc.

Definition lacking (c : string) (frames : list DataFrame) : bool :=
  existsb (λ df, negb (has_column c df)) frames.

Definition concat (frames : list DataFrame) : DataFrame :=
  {| columns :=
       (λ p : string * dtype,
          if decide (p.2 = Boolean)
          then (p.1, if lacking p.1 frames then Object else Boolean)
          else p)
       <$> fold_left (λ acc df, union_columns acc (columns df)) frames [];
     rows := mjoin (rows <$> frames) |}.

(** [df.select_dtypes(include=["number"]).columns.tolist()] *)
Definition numeric_columns (df : DataFrame) : list string :=
  (filter (λ p, p.2 = Number) (columns df)).*1.

(** *** Means

    The mean of a group skips the missing cells: it adds the numbers to a
    running sum, counts them, and divides; it is missing when there is
    nothing to count. *)

Definition accumulate (acc : Q * Z) (cell : option value) : Q * Z :=
  match cell with
  | Some (Num q) => ((acc.1 + q)%Q, acc.2 + 1)
  | _ => acc
  end.

Definition nanmean (cells : list (option value)) : option value :=
  let acc := fold_left accumulate cells (0%Q, 0) in
  if acc.2 =? 0 then None else Some (Num (acc.1 / inject_Z acc.2)%Q).

(** The row of one group: the key and the mean of every aggregated column. *)
Definition mean_row (key : string) (t : Z) (cols : list string) (group : list row) : row :=
  fold_right (λ c r, match nanmean ((λ g : row, g !! c) <$> group) with
                     | Some v => <[c := v]> r
                     | None => r
                     end)
             {[ key := Time t ]} cols.

(** [df.groupby(key, as_index=False).agg({c: "mean" for c in cols})] for a
    datetime key: one row per key, in increasing order of the key; rows
    without a key are left out.  An empty dictionary is refused
    ("No objects to concatenate"). *)
Definition group_keys (key : string) (df : DataFrame) : list Z :=
  merge_sort Z.le (remove_dups (omap (instant key) (rows df))).

Definition grouped (key : string) (cols : list string) (df : DataFrame) : DataFrame :=
  {| columns := (key, Datetime) :: ((λ c, (c, Number)) <$> cols);
     rows := (λ t, mean_row key t cols
                     (filter (λ r : row, instant key r = Some t) (rows df)))
             <$> group_keys key df |}.

Definition groupby_mean (key : string) (cols : list string) (df : DataFrame)
    : result DataFrame :=
  match cols with
  | [] => Raise ValueError
  | _ => Ok (grouped key cols df)
  end.

(** *** [left.merge(right, on=key, how="left")] on a datetime key

    The key must be a column of both tables ([KeyError]).  Every row of
    [left] is paired with the rows of [right] that have its key, in their
    order, and is kept alone when there is none.  The key column of
    [right] is left out of the result; when [left] has no row it is the key
    column of [left] that is left out.  A column that both tables then have
    is suffixed [_x] on the left and [_y] on the right, and a suffixed name
    that repeats an earlier name of its own table is refused
    ([MergeError]). *)

Definition overlap (key : string) (left right : DataFrame) : list string :=
  filter (λ c, c ≠ key ∧ c ∈ names right) (names left).

Definition suffixed (ov : list string) (suffix : string) (c : string) : string :=
  if decide (c ∈ ov) then (c +:+ suffix) else c.

(** The renamed labels that repeat an earlier renamed label while the
    label itself repeated none: [seen] holds the labels already passed. *)
Fixpoint suffix_duplicates (f : string → string) (seen labels : list string)
    : list string :=
  match labels with
  | [] => []
  | c :: rest =>
      ((if bool_decide (f c ∈ (f <$> seen) ∧ c ∉ seen) then [f c] else [])
       ++ suffix_duplicates f (seen ++ [c]) rest)%list
  end.

Definition without_key (key : string) (cols : list (string * dtype))
    : list (string * dtype) :=
  filter (λ p, p.1 ≠ key) cols.

Definition merge_left (key : string) (left right : DataFrame) : result DataFrame :=
  if negb (has_column key left && has_column key right) then Raise KeyError
  else
    let ov := overlap key left right in
    let lname := suffixed ov "_x" in
    let rname := suffixed ov "_y" in
    let lcols :=
      match rows left with
      | [] => without_key key (columns left)
      | _ => columns left
      end in
    let rcols :=
      match rows left with
      | [] => columns right
      | _ => without_key key (columns right)
      end in
    match (suffix_duplicates lname [] lcols.*1
           ++ suffix_duplicates rname [] rcols.*1)%list with
    | _ :: _ => Raise MergeError
    | [] =>
        Ok {| columns := (with_names lname lcols ++ with_names rname rcols)%list;
              rows :=
                flat_map (λ l : row,
                  match filter (λ r : row, instant key r = instant key l) (rows right) with
                  | [] => [rename_row lname l]
                  | matches =>
                      (λ r : row, rename_row lname l ∪ rename_row rname (delete key r))
                      <$> matches
                  end) (rows left) |}
    end.

(** *** [df.set_index(key).sort_index().resample("1H").mean().reset_index()]

    The key must be a datetime column ([TypeError] otherwise: the index is
    no [DatetimeIndex]).  A table without rows comes back as it is.  The
    rows without an instant are left out; when no row has one, the bounds
    of the grid are missing and are refused ([ValueError]).  [mean]
    refuses a string ([TypeError]), takes a boolean for 0 or 1, and gives a
    number; of instants it gives the instant of their mean.  The result
    has one row per hour from the hour of the first instant to the hour of
    the last one; an hour without rows has only its key. *)

Definition hour_of (t : Z) : Z := t / ns_per_hour.

Definition hourly_bins (ts : list Z) : list Z :=
  match ts with
  | [] => []
  | t0 :: _ =>
      let lo := hour_of (foldr Z.min t0 ts) in
      let hi := hour_of (foldr Z.max t0 ts) in
      fmap (λ i, (lo + Z.of_nat i) * ns_per_hour) (seq 0 (Z.to_nat (hi - lo + 1)))
  end.

Definition by_instant (key : string) (a b : row) : Prop :=
  match instant key a, instant key b with
  | Some x, Some y => x ≤ y
  | _, _ => True
  end.

Global Instance by_instant_dec key : RelDecision (by_instant key).
Proof. intros a b. unfold by_instant. destruct (instant key a), (instant key b); apply _. Defined.

Definition bin_of (key : string) (r : row) : option Z :=
  instant key r ≫= λ t, Some (hour_of t * ns_per_hour).

(** A cell as [mean] counts it. *)
Definition as_number (cell : option value) : option value :=
  match cell with
  | Some (Bool b) => Some (Num (if b then 1 else 0))
  | _ => cell
  end.

Definition instant_of (cell : option value) : option Z :=
  match cell with
  | Some (Time t) => Some t
  | _ => None
  end.

Definition mean_instant (cells : list (option value)) : option value :=
  match omap instant_of cells with
  | [] => None
  | ts => Some (Time (Z.quot (foldr Z.add 0 ts) (Z.of_nat (length ts))))
  end.

Definition hourly_cell (t : dtype) (cells : list (option value)) : option value :=
  match t with
  | Datetime => mean_instant cells
  | _ => nanmean (as_number <$> cells)
  end.

Definition hourly_dtype (t : dtype) : dtype :=
  match t with
  | Datetime => Datetime
  | _ => Number
  end.

(** The row of one hour: the key and the mean of every other column. *)
Definition hourly_row (key : string) (b : Z) (others : list (string * dtype))
    (group : list row) : row :=
  fold_right (λ p r, match hourly_cell p.2 ((λ g : row, g !! p.1) <$> group) with
                     | Some v => <[p.1 := v]> r
                     | None => r
                     end)
             {[ key := Time b ]} others.

Definition hourly (key : string) (others : list (string * dtype)) (sorted : list row)
    : DataFrame :=
  {| columns := (key, Datetime) :: ((λ p : string * dtype, (p.1, hourly_dtype p.2)) <$> others);
     rows := (λ b, hourly_row key b others
                     (filter (λ r : row, bin_of key r = Some b) sorted))
             <$> hourly_bins (omap (instant key) sorted) |}.

Definition is_string (cell : option value) : bool :=
  match cell with
  | Some (Str _) => true
  | _ => false
  end.

Definition resample_hourly_mean (key : string) (df : DataFrame) : result DataFrame :=
  if bool_decide ((key, Datetime) ∈ columns df) then
    let dated := filter (λ r : row, is_Some (instant key r)) (rows df) in
    let others := without_key key (columns df) in
    match rows df, dated with
    | [], _ => Ok {| columns := (key, Datetime) :: others; rows := [] |}
    | _ :: _, [] => Raise ValueError
    | _ :: _, _ :: _ =>
        if existsb (λ r : row, existsb (λ p : string * dtype, is_string (r !! p.1)) others) dated
        then Raise TypeError
        else Ok (hourly key others (merge_sort (by_instant key) dated))
    end
  else Raise TypeError.

End Pandas.

Import Pandas.

(** ** [build_idm_dataset.py]: the loaders *)

(** A directory: the names [os.listdir] returns, each with the table
    [pd.read_excel] reads from that file. *)
Abbreviation folder := (list (string * DataFrame)).

Definition listdir (d : folder) : list string := d.*1.

Definition read_excel (d : folder) (fname : string) : DataFrame :=
  match list_find (λ p, p.1 = fname) d with
  | Some (_, p) => p.2
  | None => mkDF [] []
  end.

Definition String_le (a b : string) : Prop := String.leb a b = true.

Global Instance String_le_dec : RelDecision String_le.
Proof. intros a b. unfold String_le. apply _. Defined.

(** [sorted(f for f in os.listdir(folder) if f.endswith(".xlsx"))] *)
Definition xlsx_files (d : folder) : list string :=
  merge_sort String_le (filter (λ f, endswith f ".xlsx" = true) (listdir d)).

(** The two tests on the date of the file name, at the head of both loops:
    the file is read when the date parses and is neither before
    [start_date] nor after [end_date]. *)
Definition fname_in_range (start_date end_date : date) (fname : string) : bool :=
  match parse_fname_date fname with
  | None => false
  | Some fdate => negb (date_ltb fdate start_date || date_ltb end_date fdate)
  end.

(** The files a loader reads, in the order it reads them. *)
Definition read_files (d : folder) (start_date end_date : date) : list string :=
  filter (λ f, fname_in_range start_date end_date f = true) (xlsx_files d).

Definition KEY : string := "DELIVERY_MTU".

Section Loaders.

(** [pd.to_datetime(_, errors="coerce")] on one cell: the instant it
    denotes, nothing for NaT. *)
Variable to_datetime : value → option Z.

(** The steps both loaders apply to a table that has the key column:
    coerce the key, drop the rows without a key, keep the rows whose own
    date is in the range. *)
Definition coerce_and_filter (start_date end_date : date) (df : DataFrame) : DataFrame :=
  let df := assign KEY Datetime (λ r, Time <$> (r !! KEY ≫= to_datetime)) df in
  let df := dropna KEY df in
  select (λ r, match instant KEY r with
               | Some t =>
                   let d := date_of_instant t in
                   negb (date_ltb d start_date) && negb (date_ltb end_date d)
               | None => false
               end) df.

(** What one DAM file contributes to [all_frames]. *)
Definition dam_frame (d : folder) (start_date end_date : date) (fname : string)
    : option DataFrame :=
  let df := read_excel d fname in
  if has_column KEY df then
    let df := coerce_and_filter start_date end_date df in
    if empty df then None else Some df
  else None.

Definition dam_frames (dam_folder : folder) (start_date end_date : date) : list DataFrame :=
  omap (dam_frame dam_folder start_date end_date)
       (read_files dam_folder start_date end_date).

Definition dam_prefix (c : string) : string :=
  if decide (c = KEY) then c else "DAM_" +:+ c.

Definition load_dam_folder (dam_folder : folder) (start_date end_date : date)
    : result DataFrame :=
  match dam_frames dam_folder start_date end_date with
  | [] => Ok (mkDF [(KEY, Object)] [])
  | all_frames =>
      let dam := concat all_frames in
      let dam := rename dam_prefix dam in
      let numeric_cols := numeric_columns dam in
      groupby_mean KEY numeric_cols dam
  end.

(** What one IDA file contributes to [frames]. *)
Definition ida_frame (d : folder) (auction_name : string) (start_date end_date : date)
    (fname : string) : option DataFrame :=
  let df := read_excel d fname in
  if has_column KEY df then
    let df := coerce_and_filter start_date end_date df in
    if empty df then None
    else Some (assign "AUCTION" Object (λ _, Some (Str auction_name)) df)
  else None.

Definition ida_frames (d : folder) (auction_name : string) (start_date end_date : date)
    : list DataFrame :=
  omap (ida_frame d auction_name start_date end_date) (read_files d start_date end_date).

Definition load_ida_folder (d : folder) (auction_name : string) (start_date end_date : date)
    : DataFrame :=
  match ida_frames d auction_name start_date end_date with
  | [] => mkDF [] []
  | frames => concat frames
  end.

(** The directory [IDAs] with its three subdirectories. *)
Record idas := mkIdas { IDA1 : folder; IDA2 : folder; IDA3 : folder }.

Definition load_all_idas (idas_root : idas) (start_date end_date : date) : DataFrame :=
  let ida1 := load_ida_folder (IDA1 idas_root) "IDA1" start_date end_date in
  let ida2 := load_ida_folder (IDA2 idas_root) "IDA2" start_date end_date in
  let ida3 := load_ida_folder (IDA3 idas_root) "IDA3" start_date end_date in
  match filter (λ df, empty df = false) [ida1; ida2; ida3] with
  | [] => mkDF [] []
  | frames => concat frames
  end.

(** [load_weather], from the table [pd.read_csv(_, parse_dates=[0])]
    returns: only its first column can hold instants. *)
Definition load_weather (w : DataFrame) : result DataFrame :=
  match columns w with
  | [] => Raise IndexError
  | (time_col, _) :: others =>
      if bool_decide (time_col ≠ KEY ∧ KEY ∈ others.*1) then
        (* two columns named DELIVERY_MTU: the index set_index builds from
           them is no DatetimeIndex, and resample refuses it *)
        Raise TypeError
      else
        let w := rename (λ c, if decide (c = time_col) then KEY else c) w in
        resample_hourly_mean KEY w
  end.

(** *** [main] *)

Record args := mkArgs {
  results_DAM : folder;
  results_IDAs : idas;
  weather_csv : DataFrame;
  start_date : date;
  end_date : date;
  out : string
}.

(** How a run of [main] ends when no exception escapes: with the
    diagnostic of line 269 and nothing written, or with the merged table
    written to [out]. *)
Inductive outcome :=
| NoDataset (diagnostic : string)
| Saved (path : string) (merged : DataFrame).

(** Lines 279 to 295: the two joins. *)
Definition merge_tables (ida_all dam_all weather : DataFrame) : result DataFrame :=
  bind (if negb (empty dam_all) then merge_left KEY ida_all dam_all
        else Ok ida_all) (λ merged,
  merge_left KEY merged weather).

(** Lines 298 and 299: [os.makedirs(os.path.dirname(out), exist_ok=True)],
    which refuses the empty path, then [merged.to_csv(out, index=False)],
    which cannot open a directory. *)
Definition save (out : string) (merged : DataFrame) : result outcome :=
  if negb (has_slash out) then Raise FileNotFoundError
  else if bool_decide (basename out ∈ [""; "."; ".."]) then Raise IsADirectoryError
  else Ok (Saved out merged).

Definition main (a : args) : result outcome :=
  bind (load_dam_folder (results_DAM a) (start_date a) (end_date a)) (λ dam_all,
  let ida_all := load_all_idas (results_IDAs a) (start_date a) (end_date a) in
  if empty ida_all then Ok (NoDataset "❌ No IDA data loaded, cannot build dataset.")
  else
    bind (load_weather (weather_csv a)) (λ weather,
    bind (merge_tables ida_all dam_all weather) (λ merged,
    save (out a) merged))).

(** The exit status of the process: 0 when [main] returns, 1 when an
    exception escapes. *)
Definition exit_status (r : result outcome) : Z :=
  match r with
  | Ok _ => 0
  | Raise _ => 1
  end.

End Loaders.

(** ** [fetch_weather.py]: the resampler and the feature block *)

Module FetchWeather.

(** A column of the weather table: its cells, one per instant of the
    index, a missing number being [None]; [numeric] tells whether pandas
    holds the column with a number type (a variable that came with
    nothing but nulls is held as objects). *)
Record series := mkSeries { numeric : bool; cells : list (option Q) }.

(** The weather table: the instants of its index and its columns, in
    order. *)
Record frame := mkFrame { index : list Z; cols : list (string * series) }.



(** [out[c] = s] *)
Fixpoint put (c : string) (s : series) (l : list (string * series))
    : list (string * series) :=
  match l with
  | [] => [(c, s)]
  | (c', s') :: rest =>
      if decide (c' = c) then (c, s) :: rest else (c', s') :: put c s rest
  end.

Definition set (c : string) (s : series) (df : frame) : frame :=
  {| index := index df; cols := put c s (cols df) |}.



Section Resampler.

(** [df.resample(freq).interpolate(method="time")] and
    [df.resample(freq).ffill()], taken from pandas as they are. *)
Variable resample_interpolate_time : string → frame → frame.
Variable resample_ffill : string → frame → frame.


End Resampler.

(** *** Statistics of a list of numbers *)

Definition sum (xs : list Q) : Q := fold_left Qplus xs 0%Q.

Definition count (xs : list Q) : Q := inject_Z (Z.of_nat (length xs)).

Definition mean (xs : list Q) : option Q :=
  match xs with
  | [] => None
  | _ => Some (sum xs / count xs)%Q
  end.

Definition Q_le (a b : Q) : Prop := Qle_bool a b = true.

Global Instance Q_le_dec : RelDecision Q_le.
Proof. intros a b. unfold Q_le. apply _. Defined.


(** The sum of the squared deviations from the mean, over one less than
    the count: the variance with [ddof = 1]. *)
Definition sample_variance (xs : list Q) : Q :=
  let m := (sum xs / count xs)%Q in
  (sum (fmap (λ x, (x - m) * (x - m))%Q xs) / (count xs - 1))%Q.

(** The numbers present in a list of cells. *)
Definition observations (l : list (option Q)) : list Q := omap id l.

(** *** [DataFrame.mean(axis=1)] and [median(axis=1)] over some columns *)



(** *** [Series.diff(1)] *)


(** *** [Series.rolling(w, min_periods)]

    The window of row [i] starts at [max(0, i + 1 - w)] and ends after row
    [i]; the statistic is taken over the numbers present in it, when there
    are at least [min_periods] of them. *)

Definition window (w i : nat) (l : list (option Q)) : list (option Q) :=
  drop (i + 1 - w) (take (i + 1) l).

Definition rolling (w min_periods : nat) (stat : list Q → option Q)
    (l : list (option Q)) : list (option Q) :=
  fmap (λ i, let obs := observations (window w i l) in
            if (min_periods <=? length obs)%nat then stat obs else None)
      (seq 0 (length l)).

Section Features.

(** [np.sqrt] on the numbers of the model. *)
Variable sqrt : Q → Q.

(** [.mean()] of a window: defined as soon as a number is present. *)
Definition window_mean (obs : list Q) : option Q := mean obs.

(** [.std()] of a window, with the default [ddof = 1]: it needs more
    numbers than [ddof]. *)
Definition window_std (obs : list Q) : option Q :=
  if (1 <? length obs)%nat then Some (sqrt (sample_variance obs)) else None.







(** [f"{base}__rollstd{w}"] and [f"{base}__rollmean{w}"] *)
Definition rollstd_name (base : string) (w : nat) : string :=
  base +:+ "__rollstd" +:+ pretty w.

Definition rollmean_name (base : string) (w : nat) : string :=
  base +:+ "__rollmean" +:+ pretty w.




Definition delta_bases : list string :=
  ["AGG__mean__wind_speed_10m"; "AGG__mean__shortwave_radiation";
   "AGG__mean__cloud_cover"].

Definition rolling_bases : list string :=
  ["AGG__mean__wind_speed_10m"; "AGG__mean__shortwave_radiation"].


End Features.

End FetchWeather.

(** ** Notions the statements use *)

(** The order of dates: by year, then month, then day. *)
Definition date_lt (a b : date) : Prop :=
  year a < year b
  ∨ (year a = year b ∧ (month a < month b ∨ (month a = month b ∧ day a < day b))).

Definition date_le (a b : date) : Prop := date_lt a b ∨ a = b.

(** The numbers in the column [c] of some rows. *)
Definition numbers (c : string) (rs : list row) : list Q :=
  omap (λ r : row, match r !! c with Some (Num q) => Some q | _ => None end) rs.

(** The arithmetic mean: the sum over the count. *)
Definition arithmetic_mean (xs : list Q) : Q :=
  (foldr Qplus 0 xs / inject_Z (Z.of_nat (length xs)))%Q.

(** The keys of a table are unique: no two rows have the same instant in
    the key column, and at most one row has none. *)
Definition unique_keys (key : string) (df : DataFrame) : Prop :=
  NoDup (fmap (instant key) (rows df)).

(** The number in a cell, when it holds one. *)
Definition number_of (cell : option value) : option Q :=
  match cell with
  | Some (Num q) => Some q
  | _ => None
  end.

(** What the union of the columns keeps true while the columns [seen] so
    far are added one at a time. *)
Definition union_inv (acc seen : list (string * dtype)) : Prop :=
  NoDup acc.*1
  ∧ (∀ c, c ∈ seen.*1 ↔ c ∈ acc.*1)
  ∧ (∀ c, (c, Number) ∈ acc → ∀ t, (c, t) ∈ seen → t = Number).


(** A directory without the entry of a given name. *)
Definition without (fname : string) (d : folder) : folder :=
  filter (λ p, p.1 ≠ fname) d.

(** The character of a digit, and a number below 100 written with two
    digits before the text [rest]. *)
Definition digit_char (n : Z) : ascii := ascii_of_nat (48 + Z.to_nat n).

Definition two_digits (n : Z) (rest : string) : string :=
  String (digit_char (n / 10)) (String (digit_char (n mod 10)) rest).

(** The eight digits [YYYYMMDD] of a date before the text [rest], as in
    [20240616_EL-DAM_Results_EN_v01.xlsx]. *)
Definition eight_digits (d : date) (rest : string) : string :=
  two_digits (year d / 100) (two_digits (year d mod 100)
    (two_digits (month d) (two_digits (day d) rest))).

(** The month and the day the expression of [%m%d] finds in a text. *)
Definition month_day (s : string) : option (Z * Z * string) :=
  head (flat_map (λ '(m, r2), fmap (λ '(d, r3), (m, d, r3)) (day_alternatives r2))
                 (month_alternatives s)).

Definition in_calendar (m d : Z) : bool := (1 <=? m) && (m <=? 12) && (1 <=? d) && (d <=? 31).

(** On four digits, [month_day] finds the month and the day they spell and
    leaves nothing, exactly when the month is 1 to 12 and the day 1 to 31. *)
Definition month_day_ok (m d : Z) : bool :=
  match month_day (two_digits m (two_digits d "")) with
  | Some (m', d', "") => in_calendar m d && (m' =? m) && (d' =? d)
  | _ => negb (in_calendar m d)
  end.

(** A row whose key is an instant of a day within the range. *)
Definition in_range_instant (start_date end_date : date) (r : row) : Prop :=
  ∃ t, instant KEY r = Some t
       ∧ date_le start_date (date_of_instant t)
       ∧ date_le (date_of_instant t) end_date.



(** The names the feature block writes after the aggregates. *)
Definition late_name (c : string) : Prop :=
  (∃ b, b ∈ FetchWeather.delta_bases ∧ c = b +:+ "__delta1")
  ∨ (∃ b w, b ∈ FetchWeather.rolling_bases
            ∧ (c = FetchWeather.rollstd_name b w ∨ c = FetchWeather.rollmean_name b w))
  ∨ c ∈ ["cal_hour"; "cal_dow"; "cal_month"].


(** Two tables share no column but the key. *)
Definition disjoint_columns (key : string) (a b : DataFrame) : Prop :=
  ∀ c, c ∈ names a → c ∈ names b → c = key.

(** The file a run writes, with the table in it. *)
Definition written (r : result outcome) : option (string * DataFrame) :=
  match r with
  | Ok (Saved path merged) => Some (path, merged)
  | _ => None
  end.

(** ** A small run, used to exercise the statements

    One day-ahead file with two publications for the first hour of
    2024-06-16, one file for each of the rounds IDA1 and IDA2, none for
    IDA3, and a half-hourly weather table. *)

Module Sample.

Definition coerce (v : value) : option Z :=
  match v with
  | Time t => Some t
  | _ => None
  end.

Definition the_day : date := mkdate 2024 6 16.

(** 2024-06-16 00:00:00 *)
Definition t0 : Z := 19890 * ns_per_day.

Definition t1 : Z := t0 + ns_per_hour.

Definition dam_sheet : DataFrame :=
  mkDF [(KEY, Object); ("MCP", Number); ("ZONE", Object)]
       [ {[ KEY := Time t0; "MCP" := Num 50; "ZONE" := Str "GR" ]};
         {[ KEY := Time t0; "MCP" := Num 52; "ZONE" := Str "GR" ]};
         {[ KEY := Time t1; "MCP" := Num 60; "ZONE" := Str "GR" ]} ].

Definition ida1_sheet : DataFrame :=
  mkDF [(KEY, Object); ("PRICE", Number)]
       [ {[ KEY := Time t0; "PRICE" := Num 48 ]};
         {[ KEY := Time t1; "PRICE" := Num 55 ]} ].

Definition ida2_sheet : DataFrame :=
  mkDF [(KEY, Object); ("PRICE", Number)]
       [ {[ KEY := Time t0; "PRICE" := Num 49 ]} ].

Definition dam_dir : folder :=
  [("20240616_EL-DAM_Results_EN_v01.xlsx", dam_sheet);
   ("20240616_notes.csv", dam_sheet);
   ("20240615_EL-DAM_Results_EN_v01.xlsx", dam_sheet)].

Definition idas_dir : idas :=
  mkIdas [("20240616_EL-IDA1_Results_EN_v01.xlsx", ida1_sheet)]
         [("20240616_EL-IDA2_Results_EN_v01.xlsx", ida2_sheet)]
         [].

Definition weather_table : DataFrame :=
  mkDF [("time", Datetime); ("AGG__mean__wind_speed_10m", Number)]
       [ {[ "time" := Time t0; "AGG__mean__wind_speed_10m" := Num 3 ]};
         {[ "time" := Time (t0 + 1800 * 1000000000); "AGG__mean__wind_speed_10m" := Num 5 ]};
         {[ "time" := Time t1; "AGG__mean__wind_speed_10m" := Num 7 ]} ].

(** A weather table with a flag, a row without instant and a later row
    of the same hour, and the table the weather loader makes of it. *)
Definition weather_flags : DataFrame :=
  mkDF [("time", Datetime); ("AGG__mean__wind_speed_10m", Number); ("is_day", Boolean)]
       [ {[ "time" := Time t0; "AGG__mean__wind_speed_10m" := Num 3; "is_day" := Bool false ]};
         {[ "AGG__mean__wind_speed_10m" := Num 9; "is_day" := Bool true ]};
         {[ "time" := Time (t0 + 1800 * 1000000000); "AGG__mean__wind_speed_10m" := Num 5;
            "is_day" := Bool true ]} ].

Definition flags_result : DataFrame :=
  mkDF [(KEY, Datetime); ("AGG__mean__wind_speed_10m", Number); ("is_day", Number)]
       [ {[ KEY := Time t0; "AGG__mean__wind_speed_10m" := Num (8 # 2);
            "is_day" := Num (1 # 2) ]} ].

Definition run : args :=
  mkArgs dam_dir idas_dir weather_table the_day the_day "data/processed/idm_dataset_2024.csv".

(** The same run over directories that hold no file. *)
Definition empty_run : args :=
  mkArgs [] (mkIdas [] [] []) weather_table the_day the_day "data/processed/idm_dataset_2024.csv".

(** The same run without any day-ahead file. *)
Definition no_dam_run : args :=
  mkArgs [] idas_dir weather_table the_day the_day "data/processed/idm_dataset_2024.csv".

(** What the day-ahead loader and the weather loader return on it. *)
Definition dam_result : DataFrame :=
  mkDF [(KEY, Datetime); ("DAM_MCP", Number)]
       [ {[ KEY := Time t0; "DAM_MCP" := Num (102 # 2) ]};
         {[ KEY := Time t1; "DAM_MCP" := Num 60 ]} ].

Definition weather_result : DataFrame :=
  mkDF [(KEY, Datetime); ("AGG__mean__wind_speed_10m", Number)]
       [ {[ KEY := Time t0; "AGG__mean__wind_speed_10m" := Num (8 # 2) ]};
         {[ KEY := Time t1; "AGG__mean__wind_speed_10m" := Num 7 ]} ].


(** The first row of the intraday table of the run. *)
Definition ida_row : row :=
  {[ KEY := Time t0; "PRICE" := Num 48; "AUCTION" := Str "IDA1" ]}.

(** The run with an output path that has no directory part. *)
Definition bare_run : args :=
  mkArgs dam_dir idas_dir weather_table the_day the_day "idm_dataset_2024.csv".


Definition sqrt_rounded (q : Q) : Q :=
  Z.sqrt (Qnum q * 10 ^ 18 / Z.pos (Qden q)) # 10 ^ 9.

End Sample.

(** * Properties *)

(** ** The sample run, evaluated *)

Example parse_fname_date_dam :
  parse_fname_date "20240616_EL-DAM_Results_EN_v01.xlsx" = Some (mkdate 2024 6 16).
Proof. reflexivity. Qed.

Example parse_fname_date_no_such_day :
  parse_fname_date "20240230_EL-DAM_Results_EN_v01.xlsx" = None.
Proof. reflexivity. Qed.

Example parse_fname_date_seven_digits :
  parse_fname_date "2024616_EL-DAM_Results_EN_v01.xlsx" = None.
Proof. reflexivity. Qed.

Example date_of_instant_t0 : date_of_instant Sample.t0 = Sample.the_day.
Proof. reflexivity. Qed.

Example read_files_sample :
  read_files Sample.dam_dir Sample.the_day Sample.the_day
  = ["20240616_EL-DAM_Results_EN_v01.xlsx"].
Proof. by vm_compute. Qed.

Example load_dam_folder_sample :
  load_dam_folder Sample.coerce Sample.dam_dir Sample.the_day Sample.the_day
  = Ok Sample.dam_result.
Proof. by vm_compute. Qed.

Example load_weather_sample : load_weather Sample.weather_table = Ok Sample.weather_result.
Proof. by vm_compute. Qed.

Example main_sample_rows :
  match main Sample.coerce Sample.run with
  | Ok (Saved path merged) =>
      nrows merged = 3%nat
      ∧ names merged = [KEY; "PRICE"; "AUCTION"; "DAM_MCP"; "AGG__mean__wind_speed_10m"]
  | _ => False
  end.
Proof. by vm_compute. Qed.

Example main_without_directory :
  main Sample.coerce
       (mkArgs Sample.dam_dir Sample.idas_dir Sample.weather_table
               Sample.the_day Sample.the_day "idm_dataset_2024.csv")
  = Raise FileNotFoundError.
Proof. by vm_compute. Qed.

(** The weather loader on a table with a flag and a row without instant:
    the flag is averaged as 0 or 1 and the row is left out. *)
Example load_weather_flags : load_weather Sample.weather_flags = Ok Sample.flags_result.
Proof. vm_compute; reflexivity. Qed.

(** A column of text stops the weather loader, and so does a second column
    named [DELIVERY_MTU]. *)
Example load_weather_text :
  load_weather (mkDF [("time", Datetime); ("site", Object)]
                     [ {[ "time" := Time Sample.t0; "site" := Str "Kozani" ]} ])
  = Raise TypeError.
Proof. vm_compute; reflexivity. Qed.

Example load_weather_second_key :
  load_weather (mkDF [("time", Datetime); (KEY, Number)]
                     [ {[ "time" := Time Sample.t0; KEY := Num 1 ]} ])
  = Raise TypeError.
Proof. vm_compute; reflexivity. Qed.

(** A run without day-ahead file whose intraday sheet has the columns
    [PRICE] and [PRICE_x], with a weather table that has a column [PRICE]:
    the suffix [_x] would repeat a name, and the join is refused. *)
Example main_suffix_clash :
  main Sample.coerce
       (mkArgs []
          (mkIdas [("20240616_EL-IDA1_Results_EN_v01.xlsx",
                    mkDF [(KEY, Object); ("PRICE", Number); ("PRICE_x", Number)]
                         [ {[ KEY := Time Sample.t0; "PRICE" := Num 48; "PRICE_x" := Num 1 ]} ])]
                  [] [])
          (mkDF [("time", Datetime); ("PRICE", Number)]
                [ {[ "time" := Time Sample.t0; "PRICE" := Num 3 ]} ])
          Sample.the_day Sample.the_day "data/processed/idm_dataset_2024.csv")
  = Raise MergeError.
Proof. vm_compute; reflexivity. Qed.

(** An output path that names a directory cannot be written. *)
Example main_out_directory :
  main Sample.coerce
       (mkArgs Sample.dam_dir Sample.idas_dir Sample.weather_table
               Sample.the_day Sample.the_day "outdir/")
  = Raise IsADirectoryError.
Proof. vm_compute; reflexivity. Qed.

Example rolling_std_sample :
  FetchWeather.rolling 3 1 (FetchWeather.window_std Sample.sqrt_rounded)
                       [Some 1%Q; Some 2%Q; Some 4%Q]
  = [None; Some 0.707106781%Q; Some 1.527525231%Q].
Proof. by vm_compute. Qed.

Example rolling_mean_sample :
  FetchWeather.rolling 3 1 FetchWeather.window_mean [Some 1%Q; None; Some 4%Q; Some 7%Q]
  = [Some 1%Q; Some 1%Q; Some (5 # 2); Some (11 # 2)].
Proof. by vm_compute. Qed.

(** ** Selection of the files *)

Lemma date_ltb_lt a b : date_ltb a b = true ↔ date_lt a b.
Proof.
  unfold date_ltb, date_lt.
  rewrite orb_true_iff, andb_true_iff, orb_true_iff, andb_true_iff.
  rewrite !Z.ltb_lt, !Z.eqb_eq. tauto.
Qed.

Lemma date_le_not_lt a b : date_le a b ↔ ¬ date_lt b a.
Proof.
  unfold date_le, date_lt. destruct a as [ya ma da], b as [yb mb db]; simpl.
  split.
  - intros [H | H]; [lia | inversion H; lia].
  - intros H.
    destruct (decide (ya = yb ∧ ma = mb ∧ da = db)) as [(-> & -> & ->) | Hne];
      [by right | left; lia].
Qed.

Lemma fname_in_range_spec start_date end_date fname fdate :
  parse_fname_date fname = Some fdate →
  fname_in_range start_date end_date fname = true
  ↔ date_le start_date fdate ∧ date_le fdate end_date.
Proof.
  intros Hp. unfold fname_in_range. rewrite Hp.
  rewrite negb_true_iff, orb_false_iff, !date_le_not_lt, <- !date_ltb_lt.
  split; intros [H1 H2]; split; try congruence.
  - by destruct (date_ltb fdate start_date).
  - by destruct (date_ltb end_date fdate).
Qed.

Lemma elem_of_xlsx_files d fname :
  fname ∈ xlsx_files d ↔ endswith fname ".xlsx" = true ∧ fname ∈ listdir d.
Proof.
  unfold xlsx_files. by rewrite merge_sort_Permutation, list_elem_of_filter.
Qed.

Lemma elem_of_read_files d start_date end_date fname :
  fname ∈ read_files d start_date end_date
  ↔ fname_in_range start_date end_date fname = true
    ∧ endswith fname ".xlsx" = true ∧ fname ∈ listdir d.
Proof.
  unfold read_files. by rewrite list_elem_of_filter, elem_of_xlsx_files.
Qed.

(** C7, as the code has it.  A file of the directory whose name starts with
    a date that parses is read if and only if its name ends in [.xlsx] and
    that date is within [start_date, end_date], bounds included: such a
    file dated [start_date] or [end_date] is read, and a date before
    [start_date] or after [end_date] excludes any file. *)
Theorem date_range_boundary (d : folder) (start_date end_date fdate : date)
    (fname : string) :
  fname ∈ listdir d →
  parse_fname_date fname = Some fdate →
  (fname ∈ read_files d start_date end_date
   ↔ endswith fname ".xlsx" = true
     ∧ date_le start_date fdate ∧ date_le fdate end_date)
  ∧ (endswith fname ".xlsx" = true → date_le start_date end_date →
     fdate = start_date ∨ fdate = end_date →
     fname ∈ read_files d start_date end_date)
  ∧ (date_lt fdate start_date → fname ∉ read_files d start_date end_date)
  ∧ (date_lt end_date fdate → fname ∉ read_files d start_date end_date).
Proof.
  intros Hin Hp.
  assert (Hiff : fname ∈ read_files d start_date end_date
                 ↔ endswith fname ".xlsx" = true
                   ∧ date_le start_date fdate ∧ date_le fdate end_date).
  { rewrite elem_of_read_files, (fname_in_range_spec _ _ _ _ Hp). tauto. }
  split; [exact Hiff |]. split.
  - intros Hx Hle [-> | ->]; apply Hiff; (split; [done |]); split; (done || by right).
  - split; intros Hlt; rewrite Hiff, !date_le_not_lt; tauto.
Qed.

Lemma date_range_boundary_witness :
  "20240616_EL-DAM_Results_EN_v01.xlsx"
  ∈ read_files Sample.dam_dir Sample.the_day Sample.the_day.
Proof.
  refine (proj1 (proj2 (date_range_boundary Sample.dam_dir Sample.the_day Sample.the_day
                          Sample.the_day "20240616_EL-DAM_Results_EN_v01.xlsx" _ _)) _ _ _).
  - left.
  - by vm_compute.
  - by vm_compute.
  - by right.
  - by left.
Defined.

(** C7, as stated, fails for a file that is no workbook: the name
    [20240616_notes.csv] of the sample directory starts with a date that
    parses, the date is within the range, and the file is not read. *)
Lemma dated_csv_not_read :
  "20240616_notes.csv" ∈ listdir Sample.dam_dir
  ∧ parse_fname_date "20240616_notes.csv" = Some Sample.the_day
  ∧ date_le Sample.the_day Sample.the_day
  ∧ bool_decide ("20240616_notes.csv"
                 ∈ read_files Sample.dam_dir Sample.the_day Sample.the_day) = false.
Proof.
  split; [right; left |]. split; [by vm_compute |]. split; [by right | by vm_compute].
Qed.

Lemma xlsx_files_without fname d :
  endswith fname ".xlsx" = false → xlsx_files (without fname d) = xlsx_files d.
Proof.
  intros Hx. unfold xlsx_files, listdir, without. f_equal.
  induction d as [| [f df] d IH]; [done |].
  rewrite filter_cons. simpl. destruct (decide (f ≠ fname)) as [Hne | Heq].
  - rewrite fmap_cons, !filter_cons. simpl. by rewrite IH.
  - apply dec_stable in Heq. subst f. rewrite filter_cons_False; [done |].
    simpl. by rewrite Hx.
Qed.

Lemma read_excel_without fname d f :
  f ≠ fname → read_excel (without fname d) f = read_excel d f.
Proof.
  intros Hne. unfold read_excel, without.
  induction d as [| [g df] d IH]; [done |].
  rewrite filter_cons. simpl. destruct (decide (g ≠ fname)) as [Hg | Hg].
  - simpl. destruct (decide (g = f)); [done |].
    destruct (list_find _ (filter _ d)) as [[? [? ?]] |],
             (list_find _ d) as [[? [? ?]] |]; simpl in *; done.
  - apply dec_stable in Hg. subst g. destruct (decide (fname = f)); [congruence |].
    destruct (list_find _ (filter _ d)) as [[? [? ?]] |],
             (list_find _ d) as [[? [? ?]] |]; simpl in *; done.
Qed.

Lemma omap_ext_in {A B} (f g : A → option B) (l : list A) :
  (∀ x, x ∈ l → f x = g x) → omap f l = omap g l.
Proof.
  induction l as [| x l IH]; intros H; [done |]; csimpl.
  rewrite (H x) by left. rewrite IH; [done |]. intros y Hy. apply H. by right.
Qed.

(** C9. A file whose name does not end in [.xlsx] is never read, whatever
    date its name starts with: it is not among the files either loader
    reads, and both loaders return what they return without it. *)
Theorem only_xlsx_is_read (d : folder) (start_date end_date : date) (fname : string) :
  endswith fname ".xlsx" = false →
  (fname ∉ read_files d start_date end_date)
  ∧ (∀ to_datetime,
       load_dam_folder to_datetime (without fname d) start_date end_date
       = load_dam_folder to_datetime d start_date end_date)
  ∧ (∀ to_datetime auction_name,
       load_ida_folder to_datetime (without fname d) auction_name start_date end_date
       = load_ida_folder to_datetime d auction_name start_date end_date).
Proof.
  intros Hx.
  assert (Hnot : ∀ f, f ∈ read_files d start_date end_date → f ≠ fname).
  { intros f Hf ->. apply elem_of_read_files in Hf. destruct Hf as (_ & Hf & _). congruence. }
  assert (Hfiles : read_files (without fname d) start_date end_date
                   = read_files d start_date end_date).
  { unfold read_files. by rewrite xlsx_files_without. }
  split; [intros Hin; by apply (Hnot fname) |].
  split.
  - intros to_datetime. unfold load_dam_folder, dam_frames. rewrite Hfiles.
    rewrite (omap_ext_in (dam_frame to_datetime (without fname d) start_date end_date)
                         (dam_frame to_datetime d start_date end_date)); [done |].
    intros f Hf. unfold dam_frame. by rewrite read_excel_without by auto.
  - intros to_datetime auction_name. unfold load_ida_folder, ida_frames. rewrite Hfiles.
    rewrite (omap_ext_in (ida_frame to_datetime (without fname d) auction_name start_date end_date)
                         (ida_frame to_datetime d auction_name start_date end_date)); [done |].
    intros f Hf. unfold ida_frame. by rewrite read_excel_without by auto.
Qed.

Lemma only_xlsx_is_read_witness :
  load_dam_folder Sample.coerce (without "20240616_notes.csv" Sample.dam_dir)
                  Sample.the_day Sample.the_day
  = load_dam_folder Sample.coerce Sample.dam_dir Sample.the_day Sample.the_day.
Proof.
  refine (proj1 (proj2 (only_xlsx_is_read Sample.dam_dir Sample.the_day Sample.the_day
                          "20240616_notes.csv" _)) Sample.coerce).
  by vm_compute.
Defined.

(** ** Keys and joins *)

Lemma filter_nil_forall {A} (P : A → Prop) `{∀ x, Decision (P x)} (l : list A) :
  (∀ x, x ∈ l → ¬ P x) → filter P l = [].
Proof.
  induction l as [| x l IH]; intros Hl; [done |].
  rewrite filter_cons_False by (apply Hl; left). apply IH. intros y Hy. apply Hl. by right.
Qed.

Lemma filter_key_le_1 {A B} `{EqDecision B} (f : A → B) (v : B) (l : list A) :
  NoDup (f <$> l) → (length (filter (λ x, f x = v) l) ≤ 1)%nat.
Proof.
  induction l as [| x l IH]; intros Hnd; [simpl; lia |].
  simpl in Hnd. apply NoDup_cons in Hnd as [Hx Hnd].
  rewrite filter_cons. destruct (decide (f x = v)) as [<- | Hne]; [| by apply IH].
  assert (filter (λ y, f y = f x) l = []) as ->; [| simpl; lia].
  apply filter_nil_forall. intros y Hy Heq. apply Hx.
  rewrite <- Heq. apply list_elem_of_fmap. by exists y.
Qed.

(** The rows of a join that returns. *)
Lemma merge_left_rows key left right merged :
  merge_left key left right = Ok merged →
  let ov := overlap key left right in
  rows merged
  = flat_map (λ l : row,
      match filter (λ r : row, instant key r = instant key l) (rows right) with
      | [] => [rename_row (suffixed ov "_x") l]
      | matches =>
          (λ r : row, rename_row (suffixed ov "_x") l
                      ∪ rename_row (suffixed ov "_y") (delete key r)) <$> matches
      end) (rows left).
Proof.
  unfold merge_left. destruct (negb _); [done |]. cbv zeta.
  destruct (_ ++ _)%list; [| done]. by intros [= <-].
Qed.

Lemma merge_left_nrows key left right merged :
  unique_keys key right → merge_left key left right = Ok merged →
  nrows merged = nrows left.
Proof.
  intros Hu Hm. apply merge_left_rows in Hm. cbv zeta in Hm.
  unfold nrows. rewrite Hm. clear Hm.
  induction (rows left) as [| l ls IH]; [done |].
  cbn [flat_map]. rewrite length_app, IH.
  pose proof (filter_key_le_1 (instant key) (instant key l) (rows right) Hu) as Hle.
  destruct (filter _ (rows right)) as [| r1 [| r2 rs]]; simpl in *; lia.
Qed.

(** *** The keys of a join

    A renaming with suffixes need not be injective, but no name other than
    the key becomes the key. *)

Lemma lookup_kmap_only (f : string → string) (m : row) k :
  (∀ k', is_Some (m !! k') → f k' = f k → k' = k) →
  rename_row f m !! f k = m !! k.
Proof.
  intros Honly. unfold rename_row, kmap.
  destruct (m !! k) as [v |] eqn:Hk.
  - apply elem_of_list_to_map_1'.
    + intros y [[k' v'] [[= Hf ->] Hin]]%list_elem_of_fmap.
      apply elem_of_map_to_list in Hin.
      assert (k' = k) as -> by (apply Honly; [by eexists | done]). congruence.
    + apply list_elem_of_fmap. exists (k, v). split; [done |].
      by apply elem_of_map_to_list.
  - apply not_elem_of_list_to_map_1.
    rewrite <- list_fmap_compose.
    intros [[k' v'] [Hf Hin]]%list_elem_of_fmap. simpl in Hf.
    apply elem_of_map_to_list in Hin.
    assert (k' = k) as -> by (apply Honly; [by eexists | done]). congruence.
Qed.

Lemma suffix_not_KEY c s : s = "_x" ∨ s = "_y" → c +:+ s ≠ KEY.
Proof.
  intros [-> | ->] H; unfold KEY in H.
  all: do 12 (destruct c as [| ? c]; [discriminate H | simpl in H; injection H as _ H]).
  all: destruct c; discriminate H.
Qed.

Lemma overlap_not_key key left right : key ∉ overlap key left right.
Proof. unfold overlap. intros [[Hne _] _]%list_elem_of_filter. done. Qed.

Lemma suffixed_KEY ov s c :
  s = "_x" ∨ s = "_y" → KEY ∉ ov → suffixed ov s c = suffixed ov s KEY → c = KEY.
Proof.
  intros Hs Hov. unfold suffixed. rewrite (decide_False (P := KEY ∈ ov)) by done.
  destruct (decide (c ∈ ov)); [| done]. intros H. by apply suffix_not_KEY in H.
Qed.

Lemma lookup_suffixed_KEY ov s (r : row) :
  s = "_x" ∨ s = "_y" → KEY ∉ ov → rename_row (suffixed ov s) r !! KEY = r !! KEY.
Proof.
  intros Hs Hov.
  assert (Hk : suffixed ov s KEY = KEY) by (unfold suffixed; by rewrite decide_False).
  rewrite <- Hk at 1. apply lookup_kmap_only. intros k' _. by apply suffixed_KEY.
Qed.

Lemma instant_merged_row ov (l r : row) :
  KEY ∉ ov →
  instant KEY (rename_row (suffixed ov "_x") l ∪ rename_row (suffixed ov "_y") (delete KEY r))
  = instant KEY l.
Proof.
  intros Hov. unfold instant. rewrite lookup_union.
  rewrite !lookup_suffixed_KEY by auto. rewrite lookup_delete_eq.
  by destruct (l !! KEY).
Qed.

Lemma merge_left_keys left right merged :
  unique_keys KEY right → merge_left KEY left right = Ok merged →
  instant KEY <$> rows merged = instant KEY <$> rows left.
Proof.
  intros Hu Hm. apply merge_left_rows in Hm. cbv zeta in Hm. rewrite Hm. clear Hm.
  pose proof (overlap_not_key KEY left right) as Hov.
  induction (rows left) as [| l ls IH]; [done |].
  cbn [flat_map]. rewrite fmap_app, IH, fmap_cons. f_equal.
  pose proof (filter_key_le_1 (instant KEY) (instant KEY l) (rows right) Hu) as Hle.
  destruct (filter _ (rows right)) as [| r1 [| r2 rs]]; simpl in Hle; [| | lia].
  - simpl. f_equal. unfold instant. by rewrite lookup_suffixed_KEY by auto.
  - simpl. f_equal. by apply instant_merged_row.
Qed.

Lemma instant_mean_row key t cols group :
  key ∉ cols → instant key (mean_row key t cols group) = Some t.
Proof.
  unfold instant, mean_row. induction cols as [| c cols IH]; intros Hnot; simpl.
  - by rewrite lookup_singleton_eq.
  - apply not_elem_of_cons in Hnot as [Hne Hnot].
    destruct (nanmean _); [rewrite lookup_insert_ne by done |]; by apply IH.
Qed.

Lemma instant_mean_rows key cols (group : Z → list row) (keys : list Z) :
  key ∉ cols →
  instant key <$> ((λ t, mean_row key t cols (group t)) <$> keys) = Some <$> keys.
Proof.
  intros Hnot. induction keys as [| t ks IH]; [done |].
  by rewrite !fmap_cons, IH, instant_mean_row.
Qed.

Lemma groupby_mean_Ok key cols df g :
  groupby_mean key cols df = Ok g → cols ≠ [] ∧ g = grouped key cols df.
Proof. unfold groupby_mean. destruct cols; [done |]. by intros [= <-]. Qed.

Lemma group_keys_NoDup key df : NoDup (group_keys key df).
Proof. unfold group_keys. rewrite merge_sort_Permutation. apply NoDup_remove_dups. Qed.

Lemma elem_of_group_keys key df t :
  t ∈ group_keys key df ↔ ∃ r, r ∈ rows df ∧ instant key r = Some t.
Proof.
  unfold group_keys.
  by rewrite merge_sort_Permutation, elem_of_remove_dups, list_elem_of_omap.
Qed.

Lemma groupby_mean_unique key cols df g :
  key ∉ cols → groupby_mean key cols df = Ok g → unique_keys key g.
Proof.
  intros Hnot [_ ->]%groupby_mean_Ok. unfold unique_keys, grouped; cbn [rows].
  rewrite (instant_mean_rows key cols
             (λ t, filter (λ r : row, instant key r = Some t) (rows df))) by done.
  apply (NoDup_fmap_2 _), group_keys_NoDup.
Qed.

Lemma hourly_bins_NoDup ts : NoDup (hourly_bins ts).
Proof.
  unfold hourly_bins. destruct ts as [| t0 ts]; [constructor |].
  apply NoDup_fmap_2_strong; [| apply NoDup_seq].
  intros i j _ _ H. unfold ns_per_hour in H. lia.
Qed.

Lemma instant_hourly_row key b others group :
  key ∉ others.*1 → instant key (hourly_row key b others group) = Some b.
Proof.
  unfold instant, hourly_row. induction others as [| [c t] others IH]; intros Hnot; simpl.
  - by rewrite lookup_singleton_eq.
  - csimpl in Hnot. apply not_elem_of_cons in Hnot as [Hne Hnot].
    destruct (hourly_cell _ _); [rewrite lookup_insert_ne by done |]; by apply IH.
Qed.

Lemma instant_hourly_rows key others (group : Z → list row) (keys : list Z) :
  key ∉ others.*1 →
  instant key <$> ((λ b, hourly_row key b others (group b)) <$> keys) = Some <$> keys.
Proof.
  intros Hnot. induction keys as [| t ks IH]; [done |].
  by rewrite !fmap_cons, IH, instant_hourly_row.
Qed.

Lemma without_key_names key cols : key ∉ (without_key key cols).*1.
Proof.
  intros [[c t] [Hc Hin]]%list_elem_of_fmap. simpl in Hc. subst c.
  apply list_elem_of_filter in Hin as [Hne _]. by apply Hne.
Qed.

Lemma resample_hourly_mean_Ok key df g :
  resample_hourly_mean key df = Ok g →
  ∃ sorted, rows g = rows (hourly key (without_key key (columns df)) sorted).
Proof.
  unfold resample_hourly_mean. case_bool_decide; [| done].
  set (dated := filter _ (rows df)).
  destruct (rows df) as [| r rs]; [intros [= <-]; by exists [] |].
  destruct dated as [| x xs]; [done |].
  destruct (existsb _ _); [done |]. intros [= <-]. by eexists.
Qed.

Lemma resample_hourly_mean_keys key df g :
  resample_hourly_mean key df = Ok g →
  ∃ hours, instant key <$> rows g = Some <$> hours
           ∧ NoDup hours
           ∧ Forall (λ t, t mod ns_per_hour = 0) hours.
Proof.
  intros [sorted Hrows]%resample_hourly_mean_Ok. rewrite Hrows.
  exists (hourly_bins (omap (instant key) sorted)).
  split; [| split; [apply hourly_bins_NoDup |]].
  - unfold hourly; cbn [rows].
    apply (instant_hourly_rows key (without_key key (columns df))
             (λ b, filter (λ r : row, bin_of key r = Some b) sorted)).
    apply without_key_names.
  - unfold hourly_bins. destruct (omap (instant key) sorted) as [| x xs]; [constructor |].
    apply Forall_fmap, Forall_forall. intros i _. simpl. apply Z_mod_mult.
Qed.

Lemma hourly_bins_grid ts :
  ∃ (lo : Z) (n : nat),
    hourly_bins ts = (λ i : nat, (lo + Z.of_nat i) * ns_per_hour) <$> seq 0 n.
Proof.
  unfold hourly_bins. destruct ts as [| t0 ts]; [by exists 0, 0%nat |].
  by eexists _, _.
Qed.

Lemma resample_hourly_mean_grid key df g :
  resample_hourly_mean key df = Ok g →
  ∃ (lo : Z) (n : nat),
    instant key <$> rows g = (λ i : nat, Some ((lo + Z.of_nat i) * ns_per_hour)) <$> seq 0 n.
Proof.
  intros [sorted Hrows]%resample_hourly_mean_Ok. rewrite Hrows.
  destruct (hourly_bins_grid (omap (instant key) sorted)) as (lo & n & Hgrid).
  exists lo, n. unfold hourly; cbn [rows].
  rewrite (instant_hourly_rows key (without_key key (columns df))
             (λ b, filter (λ r : row, bin_of key r = Some b) sorted))
    by apply without_key_names.
  rewrite Hgrid. by rewrite <- list_fmap_compose.
Qed.

Lemma resample_hourly_mean_unique key df g :
  resample_hourly_mean key df = Ok g → unique_keys key g.
Proof.
  intros (hours & Heq & Hnd & _)%resample_hourly_mean_keys.
  unfold unique_keys. rewrite Heq. by apply (NoDup_fmap_2 _).
Qed.

Lemma load_weather_unique w weather :
  load_weather w = Ok weather → unique_keys KEY weather.
Proof.
  unfold load_weather. destruct (columns w) as [| [time_col t] cs]; [done |].
  case_bool_decide; [done |]. apply resample_hourly_mean_unique.
Qed.

(** ** Columns of a concatenation *)

Lemma union_column_names c t acc :
  (union_column c t acc).*1 = if decide (c ∈ acc.*1) then acc.*1 else (acc.*1 ++ [c])%list.
Proof.
  induction acc as [| [c0 t0] acc IH]; csimpl; [done |].
  destruct (decide (c0 = c)) as [-> | Hne]; csimpl.
  - rewrite decide_True; [done | left].
  - rewrite IH. destruct (decide (c ∈ acc.*1)) as [Hin | Hnin].
    + rewrite decide_True; [done | by right].
    + rewrite decide_False; [done |]. by intros [? | ?]%elem_of_cons.
Qed.

Lemma elem_of_union_column c t acc c' t' :
  NoDup acc.*1 →
  (c', t') ∈ union_column c t acc →
  (c' ≠ c ∧ (c', t') ∈ acc)
  ∨ (c' = c ∧ ∃ t0, (c, t0) ∈ acc ∧ t' = promote t0 t)
  ∨ (c' = c ∧ (c ∉ acc.*1) ∧ t' = t).
Proof.
  induction acc as [| [c0 t0] acc IH]; simpl; intros Hnd Hin.
  - apply list_elem_of_singleton in Hin as [= -> ->]. right; right.
    split; [done |]. split; [apply not_elem_of_nil | done].
  - apply NoDup_cons in Hnd as [Hc0 Hnd].
    destruct (decide (c0 = c)) as [-> | Hne].
    + apply elem_of_cons in Hin as [[= -> ->] | Hin].
      * right; left. split; [done |]. exists t0. split; [left | done].
      * left. split; [| by right]. intros ->. apply Hc0.
        apply list_elem_of_fmap. by exists (c, t').
    + apply elem_of_cons in Hin as [[= -> ->] | Hin].
      * left. split; [done | left].
      * destruct (IH Hnd Hin) as [[H1 H2] | [[H1 (t1 & H2 & H3)] | (H1 & H2 & H3)]].
        -- left. split; [done | by right].
        -- right; left. split; [done |]. exists t1. split; [by right | done].
        -- right; right. split; [done |]. split; [| done].
           by intros [? | ?]%elem_of_cons.
Qed.

Lemma promote_Number a b : promote a b = Number → a = Number ∧ b = Number.
Proof. unfold promote. destruct (decide (a = b)); [naive_solver | done]. Qed.

Lemma union_inv_step c t acc seen :
  union_inv acc seen → union_inv (union_column c t acc) (seen ++ [(c, t)])%list.
Proof.
  intros (Hnd & Hnames & Hnum). unfold union_inv.
  rewrite union_column_names. split; [| split].
  - destruct (decide (c ∈ acc.*1)); [done |].
    apply NoDup_app. split; [done |]. split; [| apply NoDup_singleton].
    intros x Hx ->%list_elem_of_singleton. done.
  - intros x. rewrite fmap_app, elem_of_app, Hnames. simpl.
    rewrite list_elem_of_singleton.
    destruct (decide (c ∈ acc.*1)) as [Hin | Hnin].
    + split; [intros [? | ->]; done | by left].
    + rewrite elem_of_app, list_elem_of_singleton. done.
  - intros x Hx t1 Ht1.
    apply elem_of_app in Ht1.
    destruct (elem_of_union_column _ _ _ _ _ Hnd Hx)
      as [[H1 H2] | [[H1 (t0 & H2 & H3)] | (H1 & H2 & H3)]].
    + destruct Ht1 as [Ht1 | [= ? ?]%list_elem_of_singleton]; [by eapply Hnum | done].
    + subst x. symmetry in H3. apply promote_Number in H3 as [-> ->].
      destruct Ht1 as [Ht1 | [= ?]%list_elem_of_singleton]; [by eapply Hnum | done].
    + subst x t. destruct Ht1 as [Ht1 | [= ?]%list_elem_of_singleton]; [| done].
      exfalso. apply H2, Hnames, list_elem_of_fmap. by exists (c, t1).
Qed.

Lemma union_columns_inv cols acc seen :
  union_inv acc seen → union_inv (union_columns acc cols) (seen ++ cols)%list.
Proof.
  unfold union_columns. revert acc seen.
  induction cols as [| [c t] cols IH]; intros acc seen Hinv; simpl.
  - by rewrite app_nil_r.
  - rewrite (cons_middle _ seen cols), app_assoc. apply IH. by apply union_inv_step.
Qed.

Lemma union_frames_inv frames acc seen :
  union_inv acc seen →
  union_inv (fold_left (λ acc df, union_columns acc (columns df)) frames acc)
            (seen ++ mjoin (columns <$> frames))%list.
Proof.
  revert acc seen. induction frames as [| df frames IH]; intros acc seen Hinv; simpl.
  - by rewrite app_nil_r.
  - rewrite app_assoc. apply IH. by apply union_columns_inv.
Qed.

Lemma concat_columns frames :
  NoDup (names (concat frames))
  ∧ (∀ c, c ∈ names (concat frames) ↔ ∃ df, df ∈ frames ∧ c ∈ names df)
  ∧ (∀ c, (c, Number) ∈ columns (concat frames) →
          ∀ df t, df ∈ frames → (c, t) ∈ columns df → t = Number).
Proof.
  assert (Hinv : union_inv [] []).
  { split; [apply NoDup_nil_2 |]. split; [done |].
    intros c Hc. by apply elem_of_nil in Hc. }
  apply (union_frames_inv frames) in Hinv. simpl in Hinv.
  destruct Hinv as (Hnd & Hnames & Hnum).
  set (u := fold_left _ frames []) in *.
  set (post := λ p : string * dtype,
         if decide (p.2 = Boolean)
         then (p.1, if lacking p.1 frames then Object else Boolean) else p).
  assert (Hpost : (post <$> u).*1 = u.*1).
  { rewrite <- list_fmap_compose. apply list_fmap_ext. intros _ [c t] _. simpl.
    unfold post. simpl. by destruct (decide (t = Boolean)). }
  unfold names, concat; cbn [columns]. fold u. fold post. rewrite Hpost.
  split; [done |]. split.
  - intros c. rewrite <- Hnames. split.
    + intros [[c' t] [-> Hin]]%list_elem_of_fmap.
      apply list_elem_of_join in Hin as (cs & Hin & [df [-> Hdf]]%list_elem_of_fmap).
      exists df. split; [done |]. apply list_elem_of_fmap. by exists (c', t).
    + intros (df & Hdf & [[c' t] [-> Hin]]%list_elem_of_fmap).
      apply list_elem_of_fmap. exists (c', t). split; [done |].
      apply list_elem_of_join. exists (columns df). split; [done |].
      apply list_elem_of_fmap. by exists df.
  - intros c [[c' t'] [Heq Hin]]%list_elem_of_fmap df t Hdf Ht.
    unfold post in Heq. simpl in Heq.
    destruct (decide (t' = Boolean)); [by destruct (lacking c' frames) |].
    injection Heq as <- <-. apply (Hnum c Hin t).
    apply list_elem_of_join. exists (columns df). split; [done |].
    apply list_elem_of_fmap. by exists df.
Qed.

(** ** The day-ahead table has one row per key *)

Lemma elem_of_put_column c t cols : (c, t) ∈ put_column c t cols.
Proof.
  induction cols as [| [c0 t0] cols IH]; simpl; [left |].
  destruct (decide (c0 = c)); [left | by right].
Qed.

Lemma dam_frame_key to_datetime d start_date end_date fname df :
  dam_frame to_datetime d start_date end_date fname = Some df →
  (KEY, Datetime) ∈ columns df.
Proof.
  unfold dam_frame. destruct (has_column KEY _); [| done].
  destruct (empty _); [done |]. intros [= <-]. apply elem_of_put_column.
Qed.

Lemma dam_prefix_key c : dam_prefix c = KEY → c = KEY.
Proof. unfold dam_prefix. destruct (decide (c = KEY)); [done |]. by intros [=]. Qed.

Global Instance dam_prefix_inj : Inj (=) (=) dam_prefix.
Proof.
  intros a b. unfold dam_prefix.
  destruct (decide (a = KEY)) as [-> | Ha], (decide (b = KEY)) as [-> | Hb];
    try done; by intros [=].
Qed.

Lemma elem_of_numeric_columns c df :
  c ∈ numeric_columns df ↔ (c, Number) ∈ columns df.
Proof.
  unfold numeric_columns. rewrite list_elem_of_fmap. split.
  - intros ([c' t] & -> & [Ht Hin]%list_elem_of_filter). simpl in *. by subst t.
  - intros Hin. exists (c, Number). split; [done |]. by apply list_elem_of_filter.
Qed.

Lemma elem_of_columns_rename f df c' t :
  (c', t) ∈ columns (rename f df) ↔ ∃ c, c' = f c ∧ (c, t) ∈ columns df.
Proof.
  unfold rename, with_names; cbn [columns]. rewrite list_elem_of_fmap. split.
  - intros ([c t0] & [= -> ->] & Hin). by exists c.
  - intros (c & -> & Hin). by exists (c, t).
Qed.

Lemma dam_key_not_numeric to_datetime d start_date end_date :
  dam_frames to_datetime d start_date end_date ≠ [] →
  KEY ∉ numeric_columns
          (rename dam_prefix (concat (dam_frames to_datetime d start_date end_date))).
Proof.
  intros Hne Hin. apply elem_of_numeric_columns, elem_of_columns_rename in Hin.
  destruct Hin as (c & Hc & Hin). symmetry in Hc. apply dam_prefix_key in Hc. subst c.
  destruct (dam_frames to_datetime d start_date end_date) as [| df frames] eqn:Hframes;
    [done |].
  assert (Hdf : df ∈ dam_frames to_datetime d start_date end_date)
    by (rewrite Hframes; left).
  unfold dam_frames in Hdf. apply list_elem_of_omap in Hdf as (fname & _ & Hdf).
  apply dam_frame_key in Hdf.
  destruct (concat_columns (df :: frames)) as (_ & _ & Hnum).
  by specialize (Hnum KEY Hin df Datetime (list_elem_of_here _ _) Hdf).
Qed.

Lemma load_dam_folder_unique to_datetime d start_date end_date dam_all :
  load_dam_folder to_datetime d start_date end_date = Ok dam_all →
  unique_keys KEY dam_all.
Proof.
  unfold load_dam_folder.
  destruct (dam_frames to_datetime d start_date end_date) as [| df frames] eqn:Hframes.
  - intros [= <-]. apply NoDup_nil_2.
  - rewrite <- Hframes. apply groupby_mean_unique, dam_key_not_numeric. by rewrite Hframes.
Qed.

Lemma merge_tables_keys ida_all dam_all weather merged :
  unique_keys KEY dam_all → unique_keys KEY weather →
  merge_tables ida_all dam_all weather = Ok merged →
  instant KEY <$> rows merged = instant KEY <$> rows ida_all.
Proof.
  intros Hd Hw. unfold merge_tables.
  destruct (negb (empty dam_all)).
  - destruct (merge_left KEY ida_all dam_all) as [joined | e] eqn:Hj; [| done]. simpl.
    intros Hm. rewrite (merge_left_keys joined weather merged Hw Hm).
    by apply (merge_left_keys ida_all dam_all).
  - simpl. by apply merge_left_keys.
Qed.

Lemma merge_tables_nrows ida_all dam_all weather merged :
  unique_keys KEY dam_all → unique_keys KEY weather →
  merge_tables ida_all dam_all weather = Ok merged →
  nrows merged = nrows ida_all.
Proof.
  intros Hd Hw. unfold merge_tables.
  destruct (negb (empty dam_all)).
  - destruct (merge_left KEY ida_all dam_all) as [joined | e] eqn:Hj; [| done]. simpl.
    intros Hm. rewrite (merge_left_nrows KEY joined weather merged Hw Hm).
    by apply (merge_left_nrows KEY ida_all dam_all).
  - simpl. by apply merge_left_nrows.
Qed.

(** What a run that writes a table went through. *)
Lemma main_Saved to_datetime a path written :
  main to_datetime a = Ok (Saved path written) →
  ∃ dam_all weather,
    load_dam_folder to_datetime (results_DAM a) (start_date a) (end_date a) = Ok dam_all
    ∧ empty (load_all_idas to_datetime (results_IDAs a) (start_date a) (end_date a)) = false
    ∧ load_weather (weather_csv a) = Ok weather
    ∧ merge_tables (load_all_idas to_datetime (results_IDAs a) (start_date a) (end_date a))
                   dam_all weather = Ok written
    ∧ path = out a.
Proof.
  unfold main.
  destruct (load_dam_folder _ _ _ _) as [dam_all | e]; [| done]. cbn [bind].
  destruct (empty _); [intros [=] |].
  destruct (load_weather _) as [weather | e]; [| done]. cbn [bind].
  destruct (merge_tables _ _ _) as [merged | e] eqn:Hm; [| done]. cbn [bind].
  unfold save. destruct (negb _); [done |]. case_bool_decide; [done |].
  intros Hmain. simplify_eq. by exists dam_all, weather.
Qed.

(** C1. In a run in which the table of the three rounds is not empty, both
    loaders return and the two joins return a merged table, that table has
    as many rows as the intraday table and its keys are the keys of the
    intraday table, row by row; so has the table after the day-ahead join,
    and the merged table is the one [main] goes on to write.  Whatever
    table a run of [main] writes has as many rows as the intraday table of
    that run, with the same keys in the same order.  Neither join can drop
    or repeat a row because the keys of the day-ahead table and of the
    weather table are unique. *)
Theorem join_cardinality (to_datetime : value → option Z) (a : args) :
  let ida_all := load_all_idas to_datetime (results_IDAs a) (start_date a) (end_date a) in
  (∀ dam_all weather merged,
     load_dam_folder to_datetime (results_DAM a) (start_date a) (end_date a) = Ok dam_all →
     load_weather (weather_csv a) = Ok weather →
     empty ida_all = false →
     merge_tables ida_all dam_all weather = Ok merged →
     nrows merged = nrows ida_all
     ∧ instant KEY <$> rows merged = instant KEY <$> rows ida_all
     ∧ (∀ joined, merge_left KEY ida_all dam_all = Ok joined →
                  nrows joined = nrows ida_all
                  ∧ instant KEY <$> rows joined = instant KEY <$> rows ida_all)
     ∧ main to_datetime a = save (out a) merged
     ∧ unique_keys KEY dam_all
     ∧ unique_keys KEY weather)
  ∧ (∀ path written,
       main to_datetime a = Ok (Saved path written) →
       empty ida_all = false
       ∧ nrows written = nrows ida_all
       ∧ instant KEY <$> rows written = instant KEY <$> rows ida_all).
Proof.
  intros ida_all.
  assert (Hfirst : ∀ dam_all weather merged,
    load_dam_folder to_datetime (results_DAM a) (start_date a) (end_date a) = Ok dam_all →
    load_weather (weather_csv a) = Ok weather →
    merge_tables ida_all dam_all weather = Ok merged →
    nrows merged = nrows ida_all
    ∧ instant KEY <$> rows merged = instant KEY <$> rows ida_all
    ∧ unique_keys KEY dam_all ∧ unique_keys KEY weather).
  { intros dam_all weather merged Hdam Hw Hm.
    pose proof (load_dam_folder_unique _ _ _ _ _ Hdam) as Hud.
    pose proof (load_weather_unique _ _ Hw) as Huw.
    split; [by apply (merge_tables_nrows ida_all dam_all weather) |].
    split; [by apply (merge_tables_keys ida_all dam_all weather) | done]. }
  split.
  - intros dam_all weather merged Hdam Hw Hida Hm.
    destruct (Hfirst _ _ _ Hdam Hw Hm) as (Hn & Hk & Hud & Huw).
    split; [done |]. split; [done |]. split.
    { intros joined Hj. split; [by apply (merge_left_nrows KEY ida_all dam_all) |].
      by apply (merge_left_keys ida_all dam_all). }
    split; [| done].
    unfold main. rewrite Hdam. simpl. fold ida_all. rewrite Hida, Hw. simpl.
    by rewrite Hm.
  - intros path written Hmain. apply main_Saved in Hmain.
    destruct Hmain as (dam_all & weather & Hdam & Hida & Hw & Hm & _).
    fold ida_all in Hida, Hm. split; [done |].
    by destruct (Hfirst _ _ _ Hdam Hw Hm) as (Hn & Hk & _).
Qed.

Lemma join_cardinality_witness :
  ∃ merged,
    main Sample.coerce Sample.run = Ok (Saved "data/processed/idm_dataset_2024.csv" merged)
    ∧ nrows merged
      = nrows (load_all_idas Sample.coerce Sample.idas_dir Sample.the_day Sample.the_day).
Proof.
  destruct (merge_tables
              (load_all_idas Sample.coerce Sample.idas_dir Sample.the_day Sample.the_day)
              Sample.dam_result Sample.weather_result) as [merged | e] eqn:Hm;
    [| vm_compute in Hm; discriminate Hm].
  exists merged.
  destruct (proj1 (join_cardinality Sample.coerce Sample.run)
              Sample.dam_result Sample.weather_result merged)
    as (Hn & _ & _ & Hmain & _).
  - vm_compute; reflexivity.
  - vm_compute; reflexivity.
  - vm_compute; reflexivity.
  - exact Hm.
  - split; [| exact Hn]. rewrite Hmain. reflexivity.
Defined.

(** ** The weather table has one row per hour *)

(** C10. When the weather loader returns, the keys of its table are the
    hours of a grid, each once, every row has one, and a left join with it
    that returns keeps the number of rows of the left table and the keys
    of its rows.  The rows are in the order of the hours, one for every
    hour from the first to the last. *)
Theorem weather_keys_unique (w weather : DataFrame) :
  load_weather w = Ok weather →
  (∃ hours, instant KEY <$> rows weather = Some <$> hours
            ∧ NoDup hours
            ∧ Forall (λ t, t mod ns_per_hour = 0) hours)
  ∧ NoDup (instant KEY <$> rows weather)
  ∧ (∀ left merged,
       merge_left KEY left weather = Ok merged →
       nrows merged = nrows left
       ∧ instant KEY <$> rows merged = instant KEY <$> rows left)
  ∧ (∃ (first : Z) (n : nat),
       instant KEY <$> rows weather
       = (λ i : nat, Some ((first + Z.of_nat i) * ns_per_hour)) <$> seq 0 n).
Proof.
  intros Hw. pose proof (load_weather_unique _ _ Hw) as Hu.
  unfold load_weather in Hw. destruct (columns w) as [| [time_col t] cs]; [done |].
  case_bool_decide; [done |].
  split; [by apply resample_hourly_mean_keys in Hw |].
  split; [exact Hu |]. split; [| by apply resample_hourly_mean_grid in Hw].
  intros left merged Hm. split; [by apply (merge_left_nrows KEY left weather) |].
  by apply (merge_left_keys left weather).
Qed.

Lemma weather_keys_unique_witness :
  NoDup (instant KEY <$> rows Sample.flags_result).
Proof.
  refine (proj1 (proj2 (weather_keys_unique Sample.weather_flags Sample.flags_result _))).
  vm_compute; reflexivity.
Defined.

(** ** Empty and non-empty tables *)

Lemma concat_not_empty frames :
  frames ≠ [] → Forall (λ df, empty df = false) frames → empty (concat frames) = false.
Proof.
  intros Hne Hall. destruct frames as [| df frames]; [done |].
  apply Forall_cons in Hall as [Hdf _].
  unfold empty in *. apply orb_false_iff in Hdf as [Hrows Hcols].
  apply Nat.eqb_neq in Hrows. apply Nat.eqb_neq in Hcols.
  apply orb_false_iff. split; apply Nat.eqb_neq.
  - unfold nrows in *. simpl. rewrite length_app. lia.
  - destruct (columns df) as [| [c t] cs] eqn:Hc; [done |].
    destruct (concat_columns (df :: frames)) as (_ & Hnames & _).
    assert (Hin : c ∈ names (concat (df :: frames))).
    { apply Hnames. exists df. split; [left |]. unfold names. rewrite Hc. left. }
    unfold names in Hin. destruct (columns (concat (df :: frames))); [| done].
    by apply elem_of_nil in Hin.
Qed.

Lemma put_column_not_nil c t cols : put_column c t cols ≠ [].
Proof. destruct cols as [| [c0 t0] cols]; simpl; [done |]. by destruct (decide (c0 = c)). Qed.

Lemma ida_frame_not_empty to_datetime d auction_name start_date end_date fname df :
  ida_frame to_datetime d auction_name start_date end_date fname = Some df →
  empty df = false.
Proof.
  unfold ida_frame. destruct (has_column KEY _); [| done].
  destruct (empty _) eqn:He; [done |]. intros [= <-].
  unfold empty in *. apply orb_false_iff in He as [Hrows _].
  apply orb_false_iff. split.
  - unfold nrows, assign in *. cbn [rows] in *. by rewrite length_fmap.
  - apply Nat.eqb_neq. unfold assign; cbn [columns].
    pose proof (put_column_not_nil "AUCTION" Object
                  (columns (coerce_and_filter to_datetime start_date end_date
                              (read_excel d fname)))) as Hne.
    by destruct (put_column _ _ _).
Qed.

Lemma load_ida_folder_cases to_datetime d auction_name start_date end_date :
  (ida_frames to_datetime d auction_name start_date end_date = []
   ∧ load_ida_folder to_datetime d auction_name start_date end_date = mkDF [] [])
  ∨ (ida_frames to_datetime d auction_name start_date end_date ≠ []
     ∧ load_ida_folder to_datetime d auction_name start_date end_date
       = concat (ida_frames to_datetime d auction_name start_date end_date)
     ∧ empty (load_ida_folder to_datetime d auction_name start_date end_date) = false).
Proof.
  unfold load_ida_folder.
  destruct (ida_frames to_datetime d auction_name start_date end_date)
    as [| df frames] eqn:Hframes; [by left | right].
  split; [done |]. split; [done |]. apply concat_not_empty; [done |].
  rewrite <- Hframes. apply Forall_forall. intros df' Hdf'.
  unfold ida_frames in Hdf'. apply list_elem_of_omap in Hdf' as (fname & _ & Hdf').
  by eapply ida_frame_not_empty.
Qed.

Lemma load_ida_folder_empty_rows to_datetime d auction_name start_date end_date :
  empty (load_ida_folder to_datetime d auction_name start_date end_date) = true →
  load_ida_folder to_datetime d auction_name start_date end_date = mkDF [] [].
Proof.
  destruct (load_ida_folder_cases to_datetime d auction_name start_date end_date)
    as [[_ ->] | (_ & _ & ->)]; done.
Qed.

(** The frames [load_all_idas] concatenates, and what it returns from
    them. *)
Lemma load_all_idas_cases to_datetime r start_date end_date :
  let ida1 := load_ida_folder to_datetime (IDA1 r) "IDA1" start_date end_date in
  let ida2 := load_ida_folder to_datetime (IDA2 r) "IDA2" start_date end_date in
  let ida3 := load_ida_folder to_datetime (IDA3 r) "IDA3" start_date end_date in
  let frames := filter (λ df, empty df = false) [ida1; ida2; ida3] in
  (frames = [] ∧ load_all_idas to_datetime r start_date end_date = mkDF [] [])
  ∨ (frames ≠ [] ∧ load_all_idas to_datetime r start_date end_date = concat frames
     ∧ empty (load_all_idas to_datetime r start_date end_date) = false).
Proof.
  intros ida1 ida2 ida3 frames. unfold load_all_idas. fold ida1 ida2 ida3 frames.
  destruct frames as [| df fs] eqn:Hframes; [by left | right].
  split; [done |]. split; [done |]. apply concat_not_empty; [done |].
  rewrite <- Hframes. apply Forall_forall. intros df' Hdf'.
  by apply list_elem_of_filter in Hdf' as [? _].
Qed.

(** ** The two empty cases of [main] *)

(** C4, as the code has it.  When the table of the three rounds is empty,
    [main] ends with the diagnostic and writes nothing, without loading the
    weather table; it returns, so that the process ends with the exit
    status 0 and no exception reaches the caller.  That table is empty only
    when every round is: a round without rows returns the empty table, a
    value, and the other rounds are still concatenated. *)
Theorem empty_intraday_aborts (to_datetime : value → option Z) (a : args) :
  let ida1 := load_ida_folder to_datetime (IDA1 (results_IDAs a)) "IDA1"
                              (start_date a) (end_date a) in
  let ida2 := load_ida_folder to_datetime (IDA2 (results_IDAs a)) "IDA2"
                              (start_date a) (end_date a) in
  let ida3 := load_ida_folder to_datetime (IDA3 (results_IDAs a)) "IDA3"
                              (start_date a) (end_date a) in
  let ida_all := load_all_idas to_datetime (results_IDAs a) (start_date a) (end_date a) in
  (∀ dam_all,
     load_dam_folder to_datetime (results_DAM a) (start_date a) (end_date a) = Ok dam_all →
     empty ida_all = true →
     main to_datetime a = Ok (NoDataset "❌ No IDA data loaded, cannot build dataset.")
     ∧ exit_status (main to_datetime a) = 0)
  ∧ (empty ida_all = true
     ↔ empty ida1 = true ∧ empty ida2 = true ∧ empty ida3 = true)
  ∧ (∀ d auction_name,
       ida_frames to_datetime d auction_name (start_date a) (end_date a) = [] →
       load_ida_folder to_datetime d auction_name (start_date a) (end_date a) = mkDF [] []).
Proof.
  intros ida1 ida2 ida3 ida_all. split; [| split].
  - intros dam_all Hdam Hempty. unfold main. rewrite Hdam. simpl.
    fold ida_all. by rewrite Hempty.
  - pose proof (load_all_idas_cases to_datetime (results_IDAs a) (start_date a) (end_date a))
      as Hcases. cbv zeta in Hcases. fold ida1 ida2 ida3 ida_all in Hcases.
    split.
    + intros Hempty. destruct Hcases as [[Hnil _] | (_ & _ & Hne)]; [| congruence].
      rewrite !filter_cons in Hnil.
      destruct (empty ida1), (empty ida2), (empty ida3); simpl in Hnil; done.
    + intros (H1 & H2 & H3). destruct Hcases as [[_ ->] | (Hne & _ & _)]; [done |].
      exfalso. apply Hne. rewrite !filter_cons, H1, H2, H3. done.
  - intros d auction_name Hnil. unfold load_ida_folder. by rewrite Hnil.
Qed.

Lemma empty_intraday_aborts_witness :
  main Sample.coerce Sample.empty_run
  = Ok (NoDataset "❌ No IDA data loaded, cannot build dataset.").
Proof.
  refine (proj1 (proj1 (empty_intraday_aborts Sample.coerce Sample.empty_run)
                   (mkDF [(KEY, Object)] []) _ _)); by vm_compute.
Defined.

(** C4, as stated, fails: in the run over directories without files the
    table of the three rounds is empty, and [main] returns after the
    diagnostic; no exception is raised and the exit status is 0, so that
    the caller sees no failure. *)
Lemma empty_intraday_exit_status :
  empty (load_all_idas Sample.coerce (results_IDAs Sample.empty_run)
           (start_date Sample.empty_run) (end_date Sample.empty_run)) = true
  ∧ main Sample.coerce Sample.empty_run
    = Ok (NoDataset "❌ No IDA data loaded, cannot build dataset.")
  ∧ exit_status (main Sample.coerce Sample.empty_run) = 0.
Proof. by vm_compute. Qed.

(** C8. When no day-ahead file gives a frame, which is the case when no
    file is read, the day-ahead loader returns the table without rows whose
    only column is the key; the merge then leaves the day-ahead join out,
    and the run of [main] is the join of the intraday table with the
    weather table followed by the write: the empty day-ahead table is the
    cause of no failure. *)
Theorem empty_dam_degrades (to_datetime : value → option Z) (a : args) :
  let ida_all := load_all_idas to_datetime (results_IDAs a) (start_date a) (end_date a) in
  (read_files (results_DAM a) (start_date a) (end_date a) = [] →
   dam_frames to_datetime (results_DAM a) (start_date a) (end_date a) = [])
  ∧ (dam_frames to_datetime (results_DAM a) (start_date a) (end_date a) = [] →
     load_dam_folder to_datetime (results_DAM a) (start_date a) (end_date a)
     = Ok (mkDF [(KEY, Object)] [])
     ∧ (∀ ida weather,
          merge_tables ida (mkDF [(KEY, Object)] []) weather = merge_left KEY ida weather)
     ∧ (∀ weather,
          empty ida_all = false →
          load_weather (weather_csv a) = Ok weather →
          main to_datetime a = bind (merge_left KEY ida_all weather) (save (out a)))).
Proof.
  intros ida_all. split.
  { intros Hfiles. unfold dam_frames. by rewrite Hfiles. }
  intros Hframes.
  assert (Hdam : load_dam_folder to_datetime (results_DAM a) (start_date a) (end_date a)
                 = Ok (mkDF [(KEY, Object)] [])).
  { unfold load_dam_folder. by rewrite Hframes. }
  split; [exact Hdam |]. split; [done |].
  intros weather Hida Hw. unfold main. rewrite Hdam. simpl. fold ida_all.
  by rewrite Hida, Hw.
Qed.

Lemma empty_dam_degrades_witness :
  main Sample.coerce Sample.no_dam_run
  = bind (merge_left KEY
            (load_all_idas Sample.coerce Sample.idas_dir Sample.the_day Sample.the_day)
            Sample.weather_result)
         (save "data/processed/idm_dataset_2024.csv").
Proof.
  refine (proj2 (proj2 (proj2 (empty_dam_degrades Sample.coerce Sample.no_dam_run) _))
                Sample.weather_result _ _); by vm_compute.
Defined.

(** ** The intraday tables *)

Lemma put_column_names c t cols :
  (put_column c t cols).*1 = if decide (c ∈ cols.*1) then cols.*1 else (cols.*1 ++ [c])%list.
Proof.
  induction cols as [| [c0 t0] cols IH]; csimpl; [done |].
  destruct (decide (c0 = c)) as [-> | Hne]; csimpl.
  - rewrite decide_True; [done | left].
  - rewrite IH. destruct (decide (c ∈ cols.*1)) as [Hin | Hnin].
    + rewrite decide_True; [done | by right].
    + rewrite decide_False; [done |]. by intros [? | ?]%elem_of_cons.
Qed.

Lemma coerce_and_filter_names to_datetime start_date end_date df :
  has_column KEY df = true →
  names (coerce_and_filter to_datetime start_date end_date df) = names df.
Proof.
  intros Hk. apply bool_decide_eq_true in Hk.
  unfold coerce_and_filter, names, select, dropna, assign; cbn [columns].
  rewrite put_column_names. by rewrite decide_True.
Qed.

(** What one file gives: the names of its columns, with [AUCTION] after
    them unless the file has a column of that name, and the label of the
    round in every row. *)
Lemma ida_frame_spec to_datetime d auction_name start_date end_date fname df :
  ida_frame to_datetime d auction_name start_date end_date fname = Some df →
  names df = (if decide ("AUCTION" ∈ names (read_excel d fname))
              then names (read_excel d fname)
              else (names (read_excel d fname) ++ ["AUCTION"])%list)
  ∧ ∀ r, r ∈ rows df → r !! "AUCTION" = Some (Str auction_name).
Proof.
  unfold ida_frame. destruct (has_column KEY _) eqn:Hk; [| done].
  destruct (empty _); [done |]. intros [= <-]. split.
  - unfold assign, names at 1; cbn [columns]. rewrite put_column_names.
    fold (names (coerce_and_filter to_datetime start_date end_date (read_excel d fname))).
    by rewrite coerce_and_filter_names.
  - unfold assign; cbn [rows]. intros r [r0 [-> _]]%list_elem_of_fmap.
    apply lookup_insert_eq.
Qed.

Lemma load_ida_folder_spec to_datetime d auction_name start_date end_date fname df :
  fname ∈ read_files d start_date end_date →
  ida_frame to_datetime d auction_name start_date end_date fname = Some df →
  empty (load_ida_folder to_datetime d auction_name start_date end_date) = false
  ∧ ∀ c, c ∈ names df →
         c ∈ names (load_ida_folder to_datetime d auction_name start_date end_date).
Proof.
  intros Hf Hdf.
  assert (Hin : df ∈ ida_frames to_datetime d auction_name start_date end_date).
  { unfold ida_frames. apply list_elem_of_omap. by exists fname. }
  destruct (load_ida_folder_cases to_datetime d auction_name start_date end_date)
    as [[Hnil _] | (_ & Heq & Hne)].
  - rewrite Hnil in Hin. by apply elem_of_nil in Hin.
  - split; [done |]. intros c Hc. rewrite Heq.
    apply (proj1 (proj2 (concat_columns _))). by exists df.
Qed.

Lemma load_ida_folder_rows to_datetime d auction_name start_date end_date r :
  r ∈ rows (load_ida_folder to_datetime d auction_name start_date end_date) →
  r !! "AUCTION" = Some (Str auction_name).
Proof.
  destruct (load_ida_folder_cases to_datetime d auction_name start_date end_date)
    as [[_ ->] | (_ & -> & _)]; [by intros ?%elem_of_nil |].
  unfold concat; cbn [rows].
  intros (rs & Hr & [df [-> Hdf]]%list_elem_of_fmap)%list_elem_of_join.
  unfold ida_frames in Hdf. apply list_elem_of_omap in Hdf as (fname & _ & Hdf).
  by apply (proj2 (ida_frame_spec _ _ _ _ _ _ _ Hdf)).
Qed.

Lemma load_ida_folder_names to_datetime d auction_name start_date end_date c :
  c ∈ names (load_ida_folder to_datetime d auction_name start_date end_date) →
  c = "AUCTION"
  ∨ ∃ fname, fname ∈ read_files d start_date end_date ∧ c ∈ names (read_excel d fname).
Proof.
  destruct (load_ida_folder_cases to_datetime d auction_name start_date end_date)
    as [[_ ->] | (_ & -> & _)]; [by intros ?%elem_of_nil |].
  intros (df & Hdf & Hc)%(proj1 (proj2 (concat_columns _))).
  unfold ida_frames in Hdf. apply list_elem_of_omap in Hdf as (fname & Hf & Hdf).
  destruct (ida_frame_spec _ _ _ _ _ _ _ Hdf) as [Hnames _]. rewrite Hnames in Hc.
  destruct (decide ("AUCTION" ∈ names (read_excel d fname))).
  - right. by exists fname.
  - apply elem_of_app in Hc as [Hc | ->%list_elem_of_singleton]; [right | by left].
    by exists fname.
Qed.

Lemma rows_filter_nonempty (l : list DataFrame) :
  Forall (λ df, empty df = true → rows df = []) l →
  mjoin (rows <$> filter (λ df, empty df = false) l) = mjoin (rows <$> l).
Proof.
  induction 1 as [| df l Hdf _ IH]; [done |].
  rewrite filter_cons. destruct (decide (empty df = false)) as [He | He]; csimpl.
  - by rewrite IH.
  - rewrite IH, Hdf; [done |]. by destruct (empty df).
Qed.

Lemma load_all_idas_rows to_datetime r start_date end_date :
  rows (load_all_idas to_datetime r start_date end_date)
  = (rows (load_ida_folder to_datetime (IDA1 r) "IDA1" start_date end_date)
     ++ rows (load_ida_folder to_datetime (IDA2 r) "IDA2" start_date end_date)
     ++ rows (load_ida_folder to_datetime (IDA3 r) "IDA3" start_date end_date))%list.
Proof.
  set (ida1 := load_ida_folder to_datetime (IDA1 r) "IDA1" start_date end_date).
  set (ida2 := load_ida_folder to_datetime (IDA2 r) "IDA2" start_date end_date).
  set (ida3 := load_ida_folder to_datetime (IDA3 r) "IDA3" start_date end_date).
  assert (Hall : Forall (λ df, empty df = true → rows df = []) [ida1; ida2; ida3]).
  { repeat constructor; intros He; apply load_ida_folder_empty_rows in He;
      by (fold ida1 in He || fold ida2 in He || fold ida3 in He); rewrite He. }
  pose proof (rows_filter_nonempty _ Hall) as Hrows. csimpl in Hrows.
  rewrite app_nil_r in Hrows. rewrite <- Hrows.
  pose proof (load_all_idas_cases to_datetime r start_date end_date) as Hcases.
  cbv zeta in Hcases. fold ida1 ida2 ida3 in Hcases.
  destruct Hcases as [[-> ->] | (_ & -> & _)]; done.
Qed.

Lemma load_all_idas_names to_datetime r start_date end_date df c :
  df ∈ [load_ida_folder to_datetime (IDA1 r) "IDA1" start_date end_date;
        load_ida_folder to_datetime (IDA2 r) "IDA2" start_date end_date;
        load_ida_folder to_datetime (IDA3 r) "IDA3" start_date end_date] →
  empty df = false →
  c ∈ names df → c ∈ names (load_all_idas to_datetime r start_date end_date).
Proof.
  intros Hdf Hne Hc.
  pose proof (load_all_idas_cases to_datetime r start_date end_date) as Hcases.
  cbv zeta in Hcases.
  assert (Hin : df ∈ filter (λ df, empty df = false)
                  [load_ida_folder to_datetime (IDA1 r) "IDA1" start_date end_date;
                   load_ida_folder to_datetime (IDA2 r) "IDA2" start_date end_date;
                   load_ida_folder to_datetime (IDA3 r) "IDA3" start_date end_date])
    by (by apply list_elem_of_filter).
  destruct Hcases as [[Hnil _] | (_ & -> & _)].
  - rewrite Hnil in Hin. by apply elem_of_nil in Hin.
  - apply (proj1 (proj2 (concat_columns _))). by exists df.
Qed.

(** C3. A file a round loads keeps the names of its columns as they are:
    the frame it gives has exactly those names, followed by [AUCTION] when
    the file has no column of that name; every row of the frame holds the
    label of the round in [AUCTION]; the names are columns of the table of
    the round and of the table of the three rounds.  The rows of that table
    are the rows of IDA1, then those of IDA2, then those of IDA3, each with
    the label of its round.  The table of a round has no other column than
    [AUCTION] and the columns of the files read. *)
Theorem intraday_verbatim (to_datetime : value → option Z) (r : idas)
    (start_date end_date : date) :
  let round := λ (d : folder) (label : string),
                 load_ida_folder to_datetime d label start_date end_date in
  let rounds := [(IDA1 r, "IDA1"); (IDA2 r, "IDA2"); (IDA3 r, "IDA3")] in
  let ida_all := load_all_idas to_datetime r start_date end_date in
  (∀ d label fname df,
     (d, label) ∈ rounds →
     fname ∈ read_files d start_date end_date →
     ida_frame to_datetime d label start_date end_date fname = Some df →
     let source := names (read_excel d fname) in
     names df = (if decide ("AUCTION" ∈ source) then source
                 else (source ++ ["AUCTION"])%list)
     ∧ (∀ row, row ∈ rows df → row !! "AUCTION" = Some (Str label))
     ∧ (∀ c, c ∈ source ∨ c = "AUCTION" →
             c ∈ names (round d label) ∧ c ∈ names ida_all))
  ∧ rows ida_all
    = (rows (round (IDA1 r) "IDA1") ++ rows (round (IDA2 r) "IDA2")
       ++ rows (round (IDA3 r) "IDA3"))%list
  ∧ (∀ d label row,
       (d, label) ∈ rounds → row ∈ rows (round d label) →
       row ∈ rows ida_all ∧ row !! "AUCTION" = Some (Str label))
  ∧ (∀ d label c,
       c ∈ names (round d label) →
       c = "AUCTION"
       ∨ ∃ fname, fname ∈ read_files d start_date end_date
                  ∧ c ∈ names (read_excel d fname)).
Proof.
  intros round rounds ida_all.
  assert (Hrows : rows ida_all
                  = (rows (round (IDA1 r) "IDA1") ++ rows (round (IDA2 r) "IDA2")
                     ++ rows (round (IDA3 r) "IDA3"))%list)
    by apply load_all_idas_rows.
  split; [| split; [exact Hrows | split]].
  - intros d label fname df Hround Hf Hdf source.
    destruct (ida_frame_spec _ _ _ _ _ _ _ Hdf) as [Hnames Hauction].
    destruct (load_ida_folder_spec _ _ _ _ _ _ _ Hf Hdf) as [Hne Hsub].
    split; [exact Hnames |]. split; [exact Hauction |].
    intros c Hc.
    assert (Hcdf : c ∈ names df).
    { rewrite Hnames. fold source. destruct (decide ("AUCTION" ∈ source)) as [Hin | Hnin].
      - destruct Hc as [Hc | ->]; done.
      - apply elem_of_app. destruct Hc as [Hc | ->]; [by left | right; left]. }
    split; [by apply Hsub |].
    apply (load_all_idas_names to_datetime r start_date end_date (round d label));
      [| done | by apply Hsub].
    unfold rounds in Hround.
    repeat (apply elem_of_cons in Hround as [[= -> ->] | Hround];
            [unfold round; rewrite !elem_of_cons; auto |]).
    by apply elem_of_nil in Hround.
  - intros d label row Hround Hrow. split; [| by eapply load_ida_folder_rows].
    rewrite Hrows. unfold rounds in Hround.
    repeat (apply elem_of_cons in Hround as [[= -> ->] | Hround];
            [rewrite !elem_of_app; auto |]).
    by apply elem_of_nil in Hround.
  - intros d label c Hc. by apply load_ida_folder_names in Hc.
Qed.

Lemma intraday_verbatim_witness :
  "PRICE" ∈ names (load_all_idas Sample.coerce Sample.idas_dir Sample.the_day Sample.the_day).
Proof.
  refine (proj2 (proj2 (proj2 (proj1
            (intraday_verbatim Sample.coerce Sample.idas_dir Sample.the_day Sample.the_day)
            (IDA1 Sample.idas_dir) "IDA1" "20240616_EL-IDA1_Results_EN_v01.xlsx"
            (mkDF [(KEY, Datetime); ("PRICE", Number); ("AUCTION", Object)]
                  [ {[ KEY := Time Sample.t0; "PRICE" := Num 48; "AUCTION" := Str "IDA1" ]};
                    {[ KEY := Time Sample.t1; "PRICE" := Num 55; "AUCTION" := Str "IDA1" ]} ])
            _ _ _)) "PRICE" _)).
  - left.
  - left.
  - by vm_compute.
  - left. right. left.
Defined.

(** ** The mean of a group *)

Lemma fold_accumulate cells s n :
  let acc := fold_left accumulate cells (s, n) in
  (acc.1 == s + foldr Qplus 0 (omap number_of cells))%Q
  ∧ acc.2 = n + Z.of_nat (length (omap number_of cells)).
Proof.
  revert s n. induction cells as [| cell cells IH]; intros s n; simpl.
  - split; [by rewrite Qplus_0_r | lia].
  - destruct cell as [[q | | |] |]; csimpl;
      try (destruct (IH s n) as [H1 H2]; split; [exact H1 | exact H2]).
    destruct (IH (s + q)%Q (n + 1)) as [H1 H2]. split.
    + rewrite H1. ring.
    + rewrite H2. simpl length. lia.
Qed.

Lemma nanmean_spec cells :
  match omap number_of cells with
  | [] => nanmean cells = None
  | xs => ∃ m, nanmean cells = Some (Num m) ∧ (m == arithmetic_mean xs)%Q
  end.
Proof.
  unfold nanmean. destruct (fold_accumulate cells 0%Q 0) as [H1 H2].
  cbv zeta in H1, H2. set (acc := fold_left accumulate cells (0%Q, 0)) in *.
  destruct (omap number_of cells) as [| x xs] eqn:Hxs.
  - simpl in H2. by rewrite H2.
  - rewrite H2. simpl length.
    destruct (Z.eqb_spec (0 + Z.of_nat (S (length xs))) 0) as [Hz | Hz]; [lia |].
    eexists. split; [reflexivity |]. unfold arithmetic_mean. rewrite H1.
    simpl length. rewrite Z.add_0_l. by rewrite Qplus_0_l.
Qed.

Lemma mean_row_lookup_notin key t cols group c :
  c ∉ cols → c ≠ key → mean_row key t cols group !! c = None.
Proof.
  unfold mean_row. induction cols as [| c0 cols IH]; intros Hnot Hne; simpl.
  - by rewrite lookup_singleton_ne.
  - apply not_elem_of_cons in Hnot as [Hc Hnot].
    destruct (nanmean _); [rewrite lookup_insert_ne by done |]; by apply IH.
Qed.

Lemma mean_row_lookup key t cols group c :
  c ∈ cols → c ≠ key →
  mean_row key t cols group !! c = nanmean ((λ g : row, g !! c) <$> group).
Proof.
  intros Hin Hne. induction cols as [| c0 cols IH]; [by apply elem_of_nil in Hin |].
  change (mean_row key t (c0 :: cols) group)
    with (match nanmean ((λ g : row, g !! c0) <$> group) with
          | Some v => <[c0 := v]> (mean_row key t cols group)
          | None => mean_row key t cols group
          end).
  destruct (decide (c0 = c)) as [-> | Hc0].
  - destruct (nanmean ((λ g : row, g !! c) <$> group)) as [v |] eqn:Hm.
    + apply lookup_insert_eq.
    + destruct (decide (c ∈ cols)) as [Hc | Hc]; [by rewrite IH |].
      by apply mean_row_lookup_notin.
  - apply elem_of_cons in Hin as [-> | Hin]; [done |].
    destruct (nanmean ((λ g : row, g !! c0) <$> group));
      [rewrite lookup_insert_ne by done |]; by apply IH.
Qed.

Lemma filter_mean_rows key cols (group : Z → list row) (keys : list Z) t :
  key ∉ cols → NoDup keys → t ∈ keys →
  filter (λ r : row, instant key r = Some t) ((λ t, mean_row key t cols (group t)) <$> keys)
  = [mean_row key t cols (group t)].
Proof.
  intros Hnot Hnd Hin. induction keys as [| k keys IH]; [by apply elem_of_nil in Hin |].
  apply NoDup_cons in Hnd as [Hk Hnd]. rewrite fmap_cons, filter_cons.
  rewrite instant_mean_row by done.
  destruct (decide (Some k = Some t)) as [[= ->] | Hne].
  - f_equal. apply filter_nil_forall. intros r [t' [-> Ht']]%list_elem_of_fmap.
    rewrite instant_mean_row by done. intros [= ->]. done.
  - apply elem_of_cons in Hin as [-> | Hin]; [done |]. by apply IH.
Qed.

Lemma instant_rename_dam r : instant KEY (rename_row dam_prefix r) = instant KEY r.
Proof.
  unfold instant, rename_row. change KEY with (dam_prefix KEY) at 1.
  by rewrite (lookup_kmap dam_prefix).
Qed.

Lemma lookup_rename_dam r c :
  c ≠ KEY → rename_row dam_prefix r !! ("DAM_" +:+ c) = r !! c.
Proof.
  intros Hne. unfold rename_row.
  replace ("DAM_" +:+ c) with (dam_prefix c)
    by (unfold dam_prefix; by rewrite decide_False).
  by rewrite (lookup_kmap dam_prefix).
Qed.

Lemma filter_rename_dam t (rs : list row) :
  filter (λ r : row, instant KEY r = Some t) (rename_row dam_prefix <$> rs)
  = rename_row dam_prefix <$> filter (λ r : row, instant KEY r = Some t) rs.
Proof.
  induction rs as [| r rs IH]; [done |].
  rewrite fmap_cons, !filter_cons, instant_rename_dam, IH. by destruct (decide _).
Qed.

Lemma NoDup_fst_unique {A B} (l : list (A * B)) a b1 b2 :
  NoDup l.*1 → (a, b1) ∈ l → (a, b2) ∈ l → b1 = b2.
Proof.
  induction l as [| [a0 b0] l IH]; intros Hnd H1 H2; [by apply elem_of_nil in H1 |].
  csimpl in Hnd. apply NoDup_cons in Hnd as [Ha Hnd].
  apply elem_of_cons in H1 as [H1 | H1];
    apply elem_of_cons in H2 as [H2 | H2]; simplify_eq; try done.
  - exfalso. apply Ha, list_elem_of_fmap. by exists (a0, b2).
  - exfalso. apply Ha, list_elem_of_fmap. by exists (a0, b1).
  - by apply IH.
Qed.

Lemma numbers_cells c (rs : list row) :
  omap number_of ((λ r : row, r !! c) <$> rs) = numbers c rs.
Proof.
  unfold numbers. induction rs as [| r rs IH]; [done |]. csimpl. rewrite IH.
  unfold number_of. by destruct (r !! c) as [[] |].
Qed.

Lemma cells_rename_dam c (rs : list row) :
  c ≠ KEY →
  (λ g : row, g !! ("DAM_" +:+ c)) <$> (rename_row dam_prefix <$> rs)
  = (λ r : row, r !! c) <$> rs.
Proof.
  intros Hne. rewrite <- list_fmap_compose. apply list_fmap_ext.
  intros _ r _. simpl. by apply lookup_rename_dam.
Qed.

(** ** The day-ahead aggregation *)

Lemma load_dam_folder_grouped to_datetime d start_date end_date g :
  load_dam_folder to_datetime d start_date end_date = Ok g →
  dam_frames to_datetime d start_date end_date ≠ [] →
  let renamed := rename dam_prefix (concat (dam_frames to_datetime d start_date end_date)) in
  g = grouped KEY (numeric_columns renamed) renamed.
Proof.
  unfold load_dam_folder.
  destruct (dam_frames to_datetime d start_date end_date); [done |].
  intros Hg _. by apply groupby_mean_Ok in Hg as [_ ->].
Qed.

(** C2. Let [raw] be the concatenation of the day-ahead frames collected.
    For a key that occurs in [raw] (in particular one that occurs in several
    rows), the aggregated table has exactly one row with that key, and for
    every numeric column [c] of [raw] the row holds, under the name
    [DAM_c], the arithmetic mean of the numbers the rows of that key have in
    [c] (nothing when they have none).  A column of [raw] that is neither
    the key nor numeric has no column in the aggregated table. *)
Theorem dam_aggregation (to_datetime : value → option Z) (d : folder)
    (start_date end_date : date) (g : DataFrame) (t : Z) :
  let raw := concat (dam_frames to_datetime d start_date end_date) in
  let duplicates := filter (λ r : row, instant KEY r = Some t) (rows raw) in
  load_dam_folder to_datetime d start_date end_date = Ok g →
  duplicates ≠ [] →
  (∃ r, filter (λ r : row, instant KEY r = Some t) (rows g) = [r]
        ∧ ∀ c, c ≠ KEY → (c, Number) ∈ columns raw →
               match numbers c duplicates with
               | [] => r !! ("DAM_" +:+ c) = None
               | xs => ∃ m, r !! ("DAM_" +:+ c) = Some (Num m)
                            ∧ (m == arithmetic_mean xs)%Q
               end)
  ∧ (∀ c ty, (c, ty) ∈ columns raw → c ≠ KEY → ty ≠ Number →
             ("DAM_" +:+ c) ∉ names g).
Proof.
  intros raw duplicates Hg Hdup.
  pose proof (dam_key_not_numeric to_datetime d start_date end_date) as Hkey.
  fold raw in Hkey.
  destruct (decide (dam_frames to_datetime d start_date end_date = [])) as [Hnil | Hsome].
  { exfalso. apply Hdup. unfold duplicates, raw. by rewrite Hnil. }
  specialize (Hkey Hsome).
  apply load_dam_folder_grouped in Hg; [| done]. cbv zeta in Hg. fold raw in Hg.
  set (renamed := rename dam_prefix raw) in *.
  set (cols := numeric_columns renamed) in *. subst g.
  assert (Hcols : ∀ c, c ≠ KEY → ("DAM_" +:+ c) ∈ cols ↔ (c, Number) ∈ columns raw).
  { intros c Hne. unfold cols. rewrite elem_of_numeric_columns.
    unfold renamed. rewrite elem_of_columns_rename. split.
    - intros (c0 & Hc0 & Hin).
      replace ("DAM_" +:+ c) with (dam_prefix c) in Hc0
        by (unfold dam_prefix; by rewrite decide_False).
      by apply (inj dam_prefix) in Hc0 as ->.
    - intros Hin. exists c. split; [| done].
      unfold dam_prefix. by rewrite decide_False. }
  split.
  - exists (mean_row KEY t cols
              (filter (λ r : row, instant KEY r = Some t) (rows renamed))).
    split.
    + unfold grouped; cbn [rows].
      apply (filter_mean_rows KEY cols
               (λ t, filter (λ r : row, instant KEY r = Some t) (rows renamed)));
        [done | apply group_keys_NoDup |].
      apply elem_of_group_keys.
      destruct duplicates as [| r0 rs] eqn:Hd; [done |].
      assert (Hr0 : r0 ∈ filter (λ r : row, instant KEY r = Some t) (rows raw))
        by (fold duplicates; rewrite Hd; left).
      apply list_elem_of_filter in Hr0 as [Ht Hr0].
      exists (rename_row dam_prefix r0). split.
      * unfold renamed, rename; cbn [rows]. apply list_elem_of_fmap. by exists r0.
      * by rewrite instant_rename_dam.
    + intros c Hne Hnum.
      rewrite mean_row_lookup; [| by apply Hcols | by intros [=]].
      unfold renamed, rename; cbn [rows]. rewrite filter_rename_dam.
      fold duplicates. rewrite cells_rename_dam by done.
      pose proof (nanmean_spec ((λ r : row, r !! c) <$> duplicates)) as Hmean.
      by rewrite numbers_cells in Hmean.
  - intros c ty Hin Hne Hty Hnames.
    unfold names, grouped in Hnames; cbn [columns] in Hnames.
    rewrite fmap_cons, <- list_fmap_compose in Hnames.
    apply elem_of_cons in Hnames as [[=] | Hnames].
    rewrite (list_fmap_ext _ id cols) in Hnames by done. rewrite list_fmap_id in Hnames.
    apply Hcols in Hnames; [| done].
    destruct (concat_columns (dam_frames to_datetime d start_date end_date))
      as (Hnd & _ & _).
    fold raw in Hnd. apply Hty.
    by apply (NoDup_fst_unique (columns raw) c ty Number).
Qed.

Lemma dam_aggregation_witness :
  ∃ r, filter (λ r : row, instant KEY r = Some Sample.t0) (rows Sample.dam_result) = [r]
       ∧ ∃ m, r !! "DAM_MCP" = Some (Num m) ∧ (m == 51)%Q.
Proof.
  assert (Hnum : numbers "MCP"
                   (filter (λ r : row, instant KEY r = Some Sample.t0)
                      (rows (concat (dam_frames Sample.coerce Sample.dam_dir
                                       Sample.the_day Sample.the_day))))
                 = [50%Q; 52%Q]) by (vm_compute; reflexivity).
  pose proof (dam_aggregation Sample.coerce Sample.dam_dir Sample.the_day Sample.the_day
                Sample.dam_result Sample.t0) as H.
  cbv zeta in H.
  assert (H1 : load_dam_folder Sample.coerce Sample.dam_dir Sample.the_day Sample.the_day
               = Ok Sample.dam_result) by (vm_compute; reflexivity).
  assert (H2 : filter (λ r : row, instant KEY r = Some Sample.t0)
                 (rows (concat (dam_frames Sample.coerce Sample.dam_dir
                                  Sample.the_day Sample.the_day))) ≠ []).
  { intros Hnil. rewrite Hnil in Hnum. discriminate Hnum. }
  destruct (H H1 H2) as [(r & Hr & Hmean) _].
  exists r. split; [exact Hr |].
  specialize (Hmean "MCP"). rewrite Hnum in Hmean.
  destruct Hmean as (m & Hm & Heq).
  - discriminate.
  - apply (bool_decide_unpack _). vm_compute. exact I.
  - exists m. split; [exact Hm |]. rewrite Heq. vm_compute. reflexivity.
Defined.

(** ** The feature block of the weather table *)

Import FetchWeather.







(** *** The names of the rolling columns *)

Lemma rolling_bases_cases b :
  b ∈ rolling_bases →
  b = "AGG__mean__wind_speed_10m" ∨ b = "AGG__mean__shortwave_radiation".
Proof. unfold rolling_bases. rewrite !elem_of_cons, elem_of_nil. tauto. Qed.

Ltac roll_names :=
  unfold rollstd_name, rollmean_name in *; cbn [append] in *; simplify_eq.






(** *** One step of the rolling loop *)








(** *** The spellings of the hourly frequency *)











(** * Further properties of the loaders and of the feature block *)

(** ** The date of a file name *)

Lemma digit_char_spec n :
  0 ≤ n ≤ 9 → is_digit (digit_char n) = true ∧ digit (digit_char n) = n.
Proof.
  intros Hn.
  assert (H : n = 0 ∨ n = 1 ∨ n = 2 ∨ n = 3 ∨ n = 4 ∨ n = 5 ∨ n = 6 ∨ n = 7 ∨ n = 8 ∨ n = 9)
    by lia.
  repeat (destruct H as [-> | H]); subst; done.
Qed.

Lemma year_token_two_digits y rest :
  0 ≤ y ≤ 9999 →
  year_token (two_digits (y / 100) (two_digits (y mod 100) rest)) = Some (y, rest).
Proof.
  intros Hy. unfold year_token, two_digits.
  destruct (digit_char_spec (y / 100 / 10)) as [-> ->]; [Z.div_mod_to_equations; lia |].
  destruct (digit_char_spec (y / 100 mod 10)) as [-> ->]; [Z.div_mod_to_equations; lia |].
  destruct (digit_char_spec (y mod 100 / 10)) as [-> ->]; [Z.div_mod_to_equations; lia |].
  destruct (digit_char_spec (y mod 100 mod 10)) as [-> ->]; [Z.div_mod_to_equations; lia |].
  simpl. do 2 f_equal. Z.div_mod_to_equations; lia.
Qed.

Lemma has_slash_app a b : has_slash (a +:+ b) = has_slash a || has_slash b.
Proof.
  unfold has_slash. induction a as [| c a IH]; [done |]. simpl. by rewrite IH, orb_assoc.
Qed.

Lemma basename_no_slash s : has_slash s = false → basename s = s.
Proof. intros H. destruct s as [| c s]; [done |]. simpl. by rewrite H. Qed.

Lemma basename_dir dir name :
  has_slash name = false → basename (dir +:+ "/" +:+ name) = name.
Proof.
  intros H. induction dir as [| c dir IH].
  - simpl. change (has_slash (String "/" name)) with true. simpl. by apply basename_no_slash.
  - change (String c dir +:+ "/" +:+ name) with (String c (dir +:+ "/" +:+ name)).
    cbn [basename].
    assert (has_slash (String c (dir +:+ "/" +:+ name)) = true) as ->; [| done].
    change (String c (dir +:+ "/" +:+ name)) with (String c dir +:+ ("/" +:+ name)).
    rewrite has_slash_app. apply orb_true_iff. right. done.
Qed.

Lemma has_slash_String c s : has_slash (String c s) = Ascii.eqb c "/" || has_slash s.
Proof. reflexivity. Qed.

Lemma digit_char_not_slash n : 0 ≤ n ≤ 9 → Ascii.eqb (digit_char n) "/" = false.
Proof.
  intros Hn.
  assert (H : n = 0 ∨ n = 1 ∨ n = 2 ∨ n = 3 ∨ n = 4 ∨ n = 5 ∨ n = 6 ∨ n = 7 ∨ n = 8 ∨ n = 9)
    by lia.
  repeat (destruct H as [-> | H]); subst; done.
Qed.

Lemma has_slash_two_digits n rest :
  0 ≤ n ≤ 99 → has_slash (two_digits n rest) = has_slash rest.
Proof.
  intros Hn. unfold two_digits. rewrite !has_slash_String.
  rewrite !digit_char_not_slash by (Z.div_mod_to_equations; lia). done.
Qed.

Lemma match_Ymd_month_day s y r1 :
  year_token s = Some (y, r1) →
  match_Ymd s = (λ '(m, d, r3), (y, m, d, r3)) <$> month_day r1.
Proof.
  intros Hy. unfold match_Ymd, month_day. rewrite Hy.
  induction (month_alternatives r1) as [| [m r2] l IH]; [done |].
  simpl. destruct (day_alternatives r2) as [| [d r3] ds]; [exact IH | done].
Qed.

Lemma month_day_table :
  forallb (λ m, forallb (λ d, month_day_ok (Z.of_nat m) (Z.of_nat d)) (seq 0 100)) (seq 0 100)
  = true.
Proof. vm_compute. reflexivity. Qed.

Lemma month_day_two_digits m d :
  0 ≤ m ≤ 99 → 0 ≤ d ≤ 99 → month_day_ok m d = true.
Proof.
  intros Hm Hd. pose proof month_day_table as H.
  rewrite forallb_forall in H. specialize (H (Z.to_nat m)).
  rewrite forallb_forall in H. specialize (H ltac:(apply in_seq; lia) (Z.to_nat d)).
  rewrite !Z2Nat.id in H by lia. apply H, in_seq. lia.
Qed.

Lemma strptime_Ymd_eight_digits y m d :
  0 ≤ y ≤ 9999 → 0 ≤ m ≤ 99 → 0 ≤ d ≤ 99 →
  strptime_Ymd (eight_digits (mkdate y m d) "")
  = if valid_date y m d then Some (mkdate y m d) else None.
Proof.
  intros Hy Hm Hd. unfold strptime_Ymd, eight_digits; cbn [year month day].
  rewrite (match_Ymd_month_day _ y (two_digits m (two_digits d "")))
    by by apply year_token_two_digits.
  pose proof (month_day_two_digits m d Hm Hd) as Hok. unfold month_day_ok in Hok.
  assert (Hv : in_calendar m d = false → valid_date y m d = false).
  { unfold in_calendar, valid_date, days_in_month. intros H.
    destruct (is_leap y), (m =? 2) eqn:?, ((m =? 4) || (m =? 6) || (m =? 9) || (m =? 11)) eqn:?;
      lia. }
  destruct (month_day _) as [[[m' d'] r] |]; simpl.
  - destruct r as [| c r].
    + apply andb_true_iff in Hok as [[Hc ->%Z.eqb_eq]%andb_true_iff ->%Z.eqb_eq]. done.
    + apply negb_true_iff in Hok. by rewrite Hv.
  - apply negb_true_iff in Hok. by rewrite Hv.
Qed.

Lemma substring_eight_digits dt rest :
  substring 0 8 (eight_digits dt rest) = eight_digits dt "".
Proof.
  unfold eight_digits, two_digits. cbn [substring]. by destruct rest.
Qed.

Lemma has_slash_eight_digits y m d rest :
  0 ≤ y ≤ 9999 → 0 ≤ m ≤ 99 → 0 ≤ d ≤ 99 →
  has_slash (eight_digits (mkdate y m d) rest) = has_slash rest.
Proof.
  intros Hy Hm Hd. unfold eight_digits; cbn [year month day].
  rewrite !has_slash_two_digits; [done | done | done | |];
    Z.div_mod_to_equations; lia.
Qed.

(** X1. A name that starts with the eight digits [YYYYMMDD] of a year, a
    month and a day, whatever follows them, parses to that date when it is
    a date of the calendar (with a year from 1 to 9999) and to nothing
    otherwise; a directory before the name changes nothing. *)
Theorem parse_fname_date_eight_digits (dir rest : string) (y m d : Z) :
  0 ≤ y ≤ 9999 → 0 ≤ m ≤ 99 → 0 ≤ d ≤ 99 → has_slash rest = false →
  let name := eight_digits (mkdate y m d) rest in
  parse_fname_date name = (if valid_date y m d then Some (mkdate y m d) else None)
  ∧ parse_fname_date (dir +:+ "/" +:+ name) = parse_fname_date name.
Proof.
  intros Hy Hm Hd Hrest name.
  assert (Hname : has_slash name = false)
    by (unfold name; by rewrite has_slash_eight_digits).
  split.
  - unfold parse_fname_date. rewrite basename_no_slash by done.
    unfold name. rewrite substring_eight_digits. by apply strptime_Ymd_eight_digits.
  - unfold parse_fname_date. by rewrite basename_dir, basename_no_slash.
Qed.

Lemma parse_fname_date_eight_digits_witness :
  parse_fname_date ("data/raw/henex/Results2024/DAM" +:+ "/"
                    +:+ eight_digits (mkdate 2024 6 16) "_EL-DAM_Results_EN_v01.xlsx")
  = parse_fname_date (eight_digits (mkdate 2024 6 16) "_EL-DAM_Results_EN_v01.xlsx").
Proof.
  refine (proj2 (parse_fname_date_eight_digits "data/raw/henex/Results2024/DAM"
                   "_EL-DAM_Results_EN_v01.xlsx" 2024 6 16 _ _ _ _)); (lia || reflexivity).
Defined.

(** ** The rows the loaders keep *)

Lemma coerce_and_filter_rows to_datetime start_date end_date df r :
  r ∈ rows (coerce_and_filter to_datetime start_date end_date df) →
  in_range_instant start_date end_date r.
Proof.
  unfold coerce_and_filter, select; cbn [rows].
  intros [Hmask _]%list_elem_of_filter.
  destruct (instant KEY r) as [t |] eqn:Ht; [| done]. cbv zeta in Hmask.
  apply andb_true_iff in Hmask as [H1 H2].
  apply negb_true_iff in H1, H2.
  exists t. split; [done |]. rewrite !date_le_not_lt, <- !date_ltb_lt. split; congruence.
Qed.

Lemma ida_frame_rows to_datetime d auction_name start_date end_date fname df r :
  ida_frame to_datetime d auction_name start_date end_date fname = Some df →
  r ∈ rows df → in_range_instant start_date end_date r.
Proof.
  unfold ida_frame. destruct (has_column KEY _); [| done].
  destruct (empty _); [done |]. intros [= <-].
  unfold assign; cbn [rows]. intros [r0 [-> Hr0]]%list_elem_of_fmap.
  apply coerce_and_filter_rows in Hr0 as (t & Ht & Hrange).
  exists t. split; [| done]. unfold instant, put_cell in *.
  by rewrite lookup_insert_ne.
Qed.

Lemma load_ida_folder_in_range to_datetime d auction_name start_date end_date r :
  r ∈ rows (load_ida_folder to_datetime d auction_name start_date end_date) →
  in_range_instant start_date end_date r.
Proof.
  destruct (load_ida_folder_cases to_datetime d auction_name start_date end_date)
    as [[_ ->] | (_ & -> & _)]; [by intros ?%elem_of_nil |].
  unfold concat; cbn [rows].
  intros (rs & Hr & [df [-> Hdf]]%list_elem_of_fmap)%list_elem_of_join.
  unfold ida_frames in Hdf. apply list_elem_of_omap in Hdf as (fname & _ & Hdf).
  by eapply ida_frame_rows.
Qed.

(** X2. Every row of the table of the three rounds has a key, an instant
    whose own date is within [start_date, end_date]: the rows of a file in
    the range that are dated outside it are left out, and so are the rows
    without a key. *)
Theorem intraday_rows_in_range (to_datetime : value → option Z) (r : idas)
    (start_date end_date : date) (row : Pandas.row) :
  row ∈ rows (load_all_idas to_datetime r start_date end_date) →
  ∃ t, instant KEY row = Some t
       ∧ date_le start_date (date_of_instant t)
       ∧ date_le (date_of_instant t) end_date.
Proof.
  rewrite load_all_idas_rows, !elem_of_app.
  intros [H | [H | H]]; by apply load_ida_folder_in_range in H.
Qed.

Lemma intraday_rows_in_range_witness :
  ∃ t, instant KEY Sample.ida_row = Some t
       ∧ date_le Sample.the_day (date_of_instant t)
       ∧ date_le (date_of_instant t) Sample.the_day.
Proof.
  apply (intraday_rows_in_range Sample.coerce Sample.idas_dir Sample.the_day Sample.the_day).
  apply (list_elem_of_lookup_2 _ 0%nat). vm_compute; reflexivity.
Defined.

Lemma dam_frame_rows to_datetime d start_date end_date fname df r :
  dam_frame to_datetime d start_date end_date fname = Some df →
  r ∈ rows df → in_range_instant start_date end_date r.
Proof.
  unfold dam_frame. destruct (has_column KEY _); [| done].
  destruct (empty _); [done |]. intros [= <-]. apply coerce_and_filter_rows.
Qed.

Lemma Sorted_lt_NoDup (l : list Z) : Sorted Z.le l → NoDup l → StronglySorted Z.lt l.
Proof.
  intros Hs%(Sorted_StronglySorted _) Hnd. induction Hs as [| x l Hl IH Hx]; [constructor |].
  apply NoDup_cons in Hnd as [Hnot Hnd]. constructor; [by apply IH |].
  rewrite Forall_forall in Hx |- *. intros y Hy. specialize (Hx y Hy).
  assert (x ≠ y) by (by intros ->). lia.
Qed.

Lemma group_keys_sorted key df : StronglySorted Z.lt (group_keys key df).
Proof.
  apply Sorted_lt_NoDup; [| apply group_keys_NoDup].
  unfold group_keys. apply (Sorted_merge_sort _).
Qed.

(** X3. The table the day-ahead loader returns has one row for every key
    of the rows collected, in increasing order of the keys; every key is
    an instant whose date is within [start_date, end_date]; and every
    column other than the key is named [DAM_c] for a numeric column [c] of
    the rows collected. *)
Theorem day_ahead_table_shape (to_datetime : value → option Z) (d : folder)
    (start_date end_date : date) (g : DataFrame) :
  let raw := concat (dam_frames to_datetime d start_date end_date) in
  load_dam_folder to_datetime d start_date end_date = Ok g →
  (∃ keys, instant KEY <$> rows g = Some <$> keys
           ∧ StronglySorted Z.lt keys
           ∧ ∀ t, t ∈ keys ↔ ∃ r, r ∈ rows raw ∧ instant KEY r = Some t)
  ∧ (∀ row, row ∈ rows g →
       ∃ t, instant KEY row = Some t
            ∧ date_le start_date (date_of_instant t)
            ∧ date_le (date_of_instant t) end_date)
  ∧ (∀ c, c ∈ names g →
       c = KEY ∨ ∃ c0, c = "DAM_" +:+ c0 ∧ c0 ≠ KEY ∧ (c0, Number) ∈ columns raw).
Proof.
  intros raw Hg.
  destruct (decide (dam_frames to_datetime d start_date end_date = [])) as [Hnil | Hsome].
  { unfold load_dam_folder in Hg. rewrite Hnil in Hg. injection Hg as <-.
    split; [exists []; cbn; split; [done |]; split; [constructor |] |].
    - intros t. split; [by intros ?%elem_of_nil |]. unfold raw. rewrite Hnil.
      intros (r & Hr & _). by apply elem_of_nil in Hr.
    - split; [intros row Hrow; by apply elem_of_nil in Hrow |].
      intros c [-> | Hc%elem_of_nil]%elem_of_cons; [by left | done]. }
  pose proof (dam_key_not_numeric to_datetime d start_date end_date Hsome) as Hkey.
  apply load_dam_folder_grouped in Hg; [| done]. cbv zeta in Hg. fold raw in Hg, Hkey.
  set (renamed := rename dam_prefix raw) in *.
  set (cols := numeric_columns renamed) in *. subst g.
  assert (Hkeys : ∀ t, t ∈ group_keys KEY renamed ↔ ∃ r, r ∈ rows raw ∧ instant KEY r = Some t).
  { intros t. rewrite elem_of_group_keys. unfold renamed, rename; cbn [rows]. split.
    - intros (r & [r0 [-> Hr0]]%list_elem_of_fmap & Ht).
      rewrite instant_rename_dam in Ht. by exists r0.
    - intros (r & Hr & Ht). exists (rename_row dam_prefix r). split.
      + apply list_elem_of_fmap. by exists r.
      + by rewrite instant_rename_dam. }
  assert (Hrows : instant KEY <$> rows (grouped KEY cols renamed)
                  = Some <$> group_keys KEY renamed).
  { unfold grouped; cbn [rows].
    by apply (instant_mean_rows KEY cols
                (λ t, filter (λ r : row, instant KEY r = Some t) (rows renamed))). }
  split; [| split].
  - exists (group_keys KEY renamed). split; [done |]. split; [apply group_keys_sorted | done].
  - intros row Hrow.
    assert (Hin : instant KEY row ∈ instant KEY <$> rows (grouped KEY cols renamed))
      by (apply list_elem_of_fmap; by exists row).
    rewrite Hrows in Hin. apply list_elem_of_fmap in Hin as (t & Ht & Hin).
    apply Hkeys in Hin as (r & Hr & Hrt).
    unfold raw, concat in Hr; cbn [rows] in Hr.
    apply list_elem_of_join in Hr as (rs & Hr & [df [-> Hdf]]%list_elem_of_fmap).
    unfold dam_frames in Hdf. apply list_elem_of_omap in Hdf as (fname & _ & Hdf).
    destruct (dam_frame_rows _ _ _ _ _ _ _ Hdf Hr) as (t' & Ht' & Hrange).
    exists t. split; [done |]. congruence.
  - intros c Hc. unfold names, grouped in Hc; cbn [columns] in Hc.
    rewrite fmap_cons in Hc. apply elem_of_cons in Hc as [-> | Hc]; [by left | right].
    rewrite <- list_fmap_compose in Hc.
    apply list_elem_of_fmap in Hc as (c1 & -> & Hc1). simpl.
    apply elem_of_numeric_columns, elem_of_columns_rename in Hc1 as (c0 & -> & Hc0).
    assert (c0 ≠ KEY).
    { intros ->. apply Hkey. apply elem_of_numeric_columns, elem_of_columns_rename.
      by exists KEY. }
    exists c0. split; [| done]. unfold dam_prefix. by rewrite decide_False.
Qed.

Lemma day_ahead_table_shape_witness :
  ∃ keys, instant KEY <$> rows Sample.dam_result = Some <$> keys
          ∧ StronglySorted Z.lt keys
          ∧ ∀ t, t ∈ keys
                 ↔ ∃ r, r ∈ rows (concat (dam_frames Sample.coerce Sample.dam_dir
                                            Sample.the_day Sample.the_day))
                        ∧ instant KEY r = Some t.
Proof.
  refine (proj1 (day_ahead_table_shape Sample.coerce Sample.dam_dir Sample.the_day
                   Sample.the_day Sample.dam_result _)).
  vm_compute; reflexivity.
Defined.

(** ** What the feature block keeps and adds *)
















(** ** The calendar columns *)





(** ** The output path *)

(** X6. A run whose output path has no directory part writes nothing:
    [os.makedirs] is given the empty path.  When the loaders and the joins
    return, the run ends with [FileNotFoundError], after all the work. *)
Theorem bare_output_path_never_written (to_datetime : value → option Z) (a : args) :
  has_slash (out a) = false →
  written (main to_datetime a) = None
  ∧ (∀ dam_all weather merged,
       load_dam_folder to_datetime (results_DAM a) (start_date a) (end_date a) = Ok dam_all →
       empty (load_all_idas to_datetime (results_IDAs a) (start_date a) (end_date a)) = false →
       load_weather (weather_csv a) = Ok weather →
       merge_tables (load_all_idas to_datetime (results_IDAs a) (start_date a) (end_date a))
                    dam_all weather = Ok merged →
       main to_datetime a = Raise FileNotFoundError).
Proof.
  intros Hout. split.
  - destruct (main to_datetime a) as [[diagnostic | path merged] | e] eqn:Hmain; try done.
    pose proof (main_Saved _ _ _ _ Hmain) as (dam_all & weather & Hdam & Hida & Hw & Hm & _).
    exfalso. revert Hmain. unfold main.
    rewrite Hdam; cbn [bind]. rewrite Hida, Hw; cbn [bind]. rewrite Hm; cbn [bind].
    unfold save. by rewrite Hout.
  - intros dam_all weather merged Hdam Hida Hw Hm. unfold main.
    rewrite Hdam; cbn [bind]. rewrite Hida, Hw; cbn [bind]. rewrite Hm; cbn [bind].
    unfold save. by rewrite Hout.
Qed.

Lemma bare_output_path_never_written_witness :
  written (main Sample.coerce Sample.bare_run) = None.
Proof.
  refine (proj1 (bare_output_path_never_written Sample.coerce Sample.bare_run _)).
  reflexivity.
Defined.

(** ** The order of the files *)

Lemma String_compare_trans_le a b c :
  String.compare a b ≠ Gt → String.compare b c ≠ Gt → String.compare a c ≠ Gt.
Proof.
  revert b c. induction a as [| x a IH]; intros [| y b] [| z c]; simpl; try done.
  unfold Ascii.compare.
  destruct (N.compare_spec (N_of_ascii x) (N_of_ascii y)) as [Hxy | Hxy | Hxy];
    destruct (N.compare_spec (N_of_ascii y) (N_of_ascii z)) as [Hyz | Hyz | Hyz];
    destruct (N.compare_spec (N_of_ascii x) (N_of_ascii z)) as [Hxz | Hxz | Hxz];
    try done; try lia.
  apply IH.
Qed.

Global Instance String_le_trans : Transitive String_le.
Proof.
  intros a b c. unfold String_le, String.leb. intros Hab Hbc.
  pose proof (String_compare_trans_le a b c) as H.
  destruct (String.compare a b), (String.compare b c), (String.compare a c);
    try done; exfalso; by apply H.
Qed.

Global Instance String_le_antisym : AntiSymm (=) String_le.
Proof. intros a b Hab Hba. by apply String.leb_antisym. Qed.

Global Instance String_le_total : Total String_le.
Proof. intros a b. apply String.leb_total. Qed.

Lemma merge_sort_Permutation_eq (l l' : list string) :
  l ≡ₚ l' → merge_sort String_le l = merge_sort String_le l'.
Proof.
  intros Hp. apply (Sorted_unique String_le).
  - apply (Sorted_merge_sort _).
  - apply (Sorted_merge_sort _).
  - by rewrite !merge_sort_Permutation.
Qed.

Lemma xlsx_files_Permutation d d' : d ≡ₚ d' → xlsx_files d = xlsx_files d'.
Proof.
  intros Hp. unfold xlsx_files, listdir. apply merge_sort_Permutation_eq.
  by rewrite Hp.
Qed.

Lemma read_excel_elem_of (d : folder) f df :
  NoDup (listdir d) → (f, df) ∈ d → read_excel d f = df.
Proof.
  unfold read_excel, listdir. induction d as [| [g dg] d IH]; intros Hnd Hin;
    [by apply elem_of_nil in Hin |].
  csimpl in Hnd. apply NoDup_cons in Hnd as [Hg Hnd].
  simpl. destruct (decide (g = f)) as [-> | Hne]; simpl.
  - apply elem_of_cons in Hin as [[= ->] | Hin]; [done |].
    exfalso. apply Hg, list_elem_of_fmap. by exists (f, df).
  - apply elem_of_cons in Hin as [[= -> ->] | Hin]; [done |].
    specialize (IH Hnd Hin).
    destruct (list_find _ d) as [[? [? ?]] |]; simpl in *; done.
Qed.

Lemma read_excel_Permutation (d d' : folder) f :
  NoDup (listdir d) → d ≡ₚ d' → f ∈ listdir d → read_excel d' f = read_excel d f.
Proof.
  intros Hnd Hp [[g df] [-> Hin]]%list_elem_of_fmap. simpl.
  rewrite (read_excel_elem_of d g df) by done.
  apply read_excel_elem_of.
  - unfold listdir. by rewrite <- Hp.
  - by rewrite <- Hp.
Qed.

Lemma StronglySorted_filter_2 {A} (R : relation A) (P : A → Prop) `{∀ x, Decision (P x)}
    (l : list A) :
  StronglySorted R l → StronglySorted R (filter P l).
Proof.
  induction 1 as [| x l Hl IH Hx]; [constructor |].
  rewrite filter_cons. destruct (decide (P x)); [| done].
  constructor; [done |]. rewrite Forall_forall in Hx |- *.
  intros y [_ Hy]%list_elem_of_filter. by apply Hx.
Qed.

(** X7. The loaders do not depend on the order in which [os.listdir] gives
    the names of a directory: the files are read in the order of their
    names, so that two listings of the same files give the same list of
    files read and the same tables. *)
Theorem listing_order_irrelevant (to_datetime : value → option Z) (d d' : folder)
    (start_date end_date : date) :
  NoDup (listdir d) → d ≡ₚ d' →
  read_files d' start_date end_date = read_files d start_date end_date
  ∧ Sorted String_le (read_files d start_date end_date)
  ∧ load_dam_folder to_datetime d' start_date end_date
    = load_dam_folder to_datetime d start_date end_date
  ∧ ∀ auction_name,
      load_ida_folder to_datetime d' auction_name start_date end_date
      = load_ida_folder to_datetime d auction_name start_date end_date.
Proof.
  intros Hnd Hp.
  assert (Hfiles : read_files d' start_date end_date = read_files d start_date end_date).
  { unfold read_files. by rewrite (xlsx_files_Permutation d d'). }
  assert (Hread : ∀ f, f ∈ read_files d start_date end_date →
                       read_excel d' f = read_excel d f).
  { intros f (_ & _ & Hf)%elem_of_read_files. by apply read_excel_Permutation. }
  split; [done |]. split; [| split].
  - unfold read_files. apply StronglySorted_Sorted, StronglySorted_filter_2.
    apply (Sorted_StronglySorted _). unfold xlsx_files. apply (Sorted_merge_sort _).
  - unfold load_dam_folder, dam_frames. rewrite Hfiles.
    rewrite (omap_ext_in (dam_frame to_datetime d' start_date end_date)
                         (dam_frame to_datetime d start_date end_date)); [done |].
    intros f Hf. unfold dam_frame. by rewrite Hread.
  - intros auction_name. unfold load_ida_folder, ida_frames. rewrite Hfiles.
    rewrite (omap_ext_in (ida_frame to_datetime d' auction_name start_date end_date)
                         (ida_frame to_datetime d auction_name start_date end_date)); [done |].
    intros f Hf. unfold ida_frame. by rewrite Hread.
Qed.

Lemma listing_order_irrelevant_witness :
  load_dam_folder Sample.coerce (reverse Sample.dam_dir) Sample.the_day Sample.the_day
  = load_dam_folder Sample.coerce Sample.dam_dir Sample.the_day Sample.the_day.
Proof.
  refine (proj1 (proj2 (proj2 (listing_order_irrelevant Sample.coerce Sample.dam_dir
                                 (reverse Sample.dam_dir) Sample.the_day Sample.the_day
                                 _ _)))).
  - apply (bool_decide_unpack _). vm_compute. exact I.
  - symmetry. apply reverse_Permutation.
Defined.

(** ** The files that give nothing *)

Lemma listdir_without fname d :
  listdir (without fname d) = filter (λ f, f ≠ fname) (listdir d).
Proof.
  unfold listdir, without. induction d as [| [f df] d IH]; [done |].
  rewrite fmap_cons, !filter_cons. simpl.
  destruct (decide (f ≠ fname)); [by rewrite fmap_cons, IH | done].
Qed.

Lemma filter_comm {A} (P Q : A → Prop) `{∀ x, Decision (P x), ∀ x, Decision (Q x)}
    (l : list A) :
  filter P (filter Q l) = filter Q (filter P l).
Proof. rewrite !list_filter_filter. apply list_filter_iff. intros x. tauto. Qed.

Lemma merge_sort_filter (P : string → Prop) `{∀ x, Decision (P x)} (l : list string) :
  merge_sort String_le (filter P l) = filter P (merge_sort String_le l).
Proof.
  apply (Sorted_unique String_le).
  - apply (Sorted_merge_sort _).
  - apply StronglySorted_Sorted, StronglySorted_filter_2, (Sorted_StronglySorted _).
    apply (Sorted_merge_sort _).
  - by rewrite !merge_sort_Permutation.
Qed.

Lemma read_files_without fname d start_date end_date :
  read_files (without fname d) start_date end_date
  = filter (λ f, f ≠ fname) (read_files d start_date end_date).
Proof.
  unfold read_files, xlsx_files. rewrite listdir_without.
  rewrite (filter_comm (λ f, endswith f ".xlsx" = true) (λ f, f ≠ fname)).
  rewrite (merge_sort_filter (λ f, f ≠ fname)).
  apply filter_comm.
Qed.

Lemma omap_filter_None {A B} `{EqDecision A} (f : A → option B) (x : A) (l : list A) :
  (x ∈ l → f x = None) → omap f (filter (λ y, y ≠ x) l) = omap f l.
Proof.
  induction l as [| y l IH]; intros Hx; [done |].
  rewrite filter_cons. destruct (decide (y ≠ x)) as [Hne | Heq]; csimpl.
  - rewrite IH; [done |]. intros Hin. apply Hx. by right.
  - apply dec_stable in Heq. subst y. rewrite (Hx ltac:(left)).
    apply IH. intros Hin. apply Hx. by right.
Qed.

(** X8. A file that is not read, or that is read and gives no frame (it
    has no column [DELIVERY_MTU], or none of its rows has a key dated
    within the range), changes nothing: each loader returns what it
    returns for the directory without that file. *)
Theorem skipped_file_changes_nothing (to_datetime : value → option Z) (d : folder)
    (start_date end_date : date) (fname : string) :
  (fname ∉ read_files d start_date end_date
   ∨ dam_frame to_datetime d start_date end_date fname = None →
   load_dam_folder to_datetime (without fname d) start_date end_date
   = load_dam_folder to_datetime d start_date end_date)
  ∧ (∀ auction_name,
       fname ∉ read_files d start_date end_date
       ∨ ida_frame to_datetime d auction_name start_date end_date fname = None →
       load_ida_folder to_datetime (without fname d) auction_name start_date end_date
       = load_ida_folder to_datetime d auction_name start_date end_date).
Proof.
  split.
  - intros Hskip. unfold load_dam_folder, dam_frames. rewrite read_files_without.
    rewrite (omap_ext_in (dam_frame to_datetime (without fname d) start_date end_date)
                         (dam_frame to_datetime d start_date end_date)).
    + rewrite omap_filter_None; [done |]. by destruct Hskip.
    + intros f [Hne _]%list_elem_of_filter. unfold dam_frame.
      by rewrite read_excel_without.
  - intros auction_name Hskip. unfold load_ida_folder, ida_frames.
    rewrite read_files_without.
    rewrite (omap_ext_in (ida_frame to_datetime (without fname d) auction_name
                            start_date end_date)
                         (ida_frame to_datetime d auction_name start_date end_date)).
    + rewrite omap_filter_None; [done |]. by destruct Hskip.
    + intros f [Hne _]%list_elem_of_filter. unfold ida_frame.
      by rewrite read_excel_without.
Qed.

Lemma skipped_file_changes_nothing_witness :
  load_dam_folder Sample.coerce
                  (without "20240615_EL-DAM_Results_EN_v01.xlsx" Sample.dam_dir)
                  Sample.the_day Sample.the_day
  = load_dam_folder Sample.coerce Sample.dam_dir Sample.the_day Sample.the_day.
Proof.
  refine (proj1 (skipped_file_changes_nothing Sample.coerce Sample.dam_dir Sample.the_day
                   Sample.the_day "20240615_EL-DAM_Results_EN_v01.xlsx") _).
  left. rewrite read_files_sample. apply not_elem_of_cons. split; [discriminate |].
  apply not_elem_of_nil.
Defined.

(** ** The cells of the intraday rows in the merged table *)

Lemma overlap_nil key left right :
  disjoint_columns key left right → overlap key left right = [].
Proof.
  intros Hd. unfold overlap. apply filter_nil_forall.
  intros c Hc [Hne Hin]. by apply Hne, Hd.
Qed.

Lemma rename_row_id (f : string → string) (r : row) : (∀ c, f c = c) → rename_row f r = r.
Proof.
  intros Hf. apply map_eq. intros c. rewrite <- (Hf c) at 1.
  apply lookup_kmap_only. intros k' _. by rewrite !Hf.
Qed.

Lemma with_names_id (f : string → string) cols : (∀ c, f c = c) → with_names f cols = cols.
Proof.
  intros Hf. unfold with_names. rewrite <- (list_fmap_id cols) at 2.
  apply list_fmap_ext. intros _ [c t] _. simpl. by rewrite Hf.
Qed.

Lemma suffixed_nil s c : suffixed [] s c = c.
Proof. unfold suffixed. rewrite decide_False; [done | apply not_elem_of_nil]. Qed.

(** A join of tables that share no column but the key. *)
Lemma merge_left_disjoint key left right merged :
  disjoint_columns key left right →
  merge_left key left right = Ok merged →
  (∀ c, c ∈ names merged → c ∈ names left ∨ c ∈ names right)
  ∧ rows merged
    = flat_map (λ l : row,
        match filter (λ r : row, instant key r = instant key l) (rows right) with
        | [] => [l]
        | matches => (λ r : row, l ∪ delete key r) <$> matches
        end) (rows left).
Proof.
  intros Hd%overlap_nil Hm. split.
  - revert Hm. unfold merge_left. destruct (negb _); [done |]. cbv zeta. rewrite Hd.
    destruct (_ ++ _)%list; [| done]. intros [= <-]. unfold names; cbn [columns].
    rewrite !with_names_id by apply suffixed_nil.
    intros c. rewrite fmap_app, elem_of_app.
    destruct (rows left); unfold without_key; intros [Hc | Hc]; [left | right | left | right];
      try done.
    + apply list_elem_of_fmap in Hc as (p & -> & [_ Hp]%list_elem_of_filter).
      apply list_elem_of_fmap. by exists p.
    + apply list_elem_of_fmap in Hc as (p & -> & [_ Hp]%list_elem_of_filter).
      apply list_elem_of_fmap. by exists p.
  - rewrite (merge_left_rows _ _ _ _ Hm). cbv zeta. rewrite Hd.
    induction (rows left) as [| l ls IH]; [done |].
    cbn [flat_map]. rewrite IH. f_equal.
    rewrite (rename_row_id _ l) by apply suffixed_nil.
    destruct (filter _ (rows right)); [done |].
    apply list_fmap_ext. intros _ r _. simpl.
    by rewrite rename_row_id by apply suffixed_nil.
Qed.

Lemma merge_left_carries key left right merged :
  disjoint_columns key left right → unique_keys key right →
  merge_left key left right = Ok merged →
  Forall2 (λ l m : row,
             l ⊆ m
             ∧ ((∀ r, r ∈ rows right → instant key r ≠ instant key l) → m = l))
          (rows left) (rows merged).
Proof.
  intros Hd Hu Hm. destruct (merge_left_disjoint _ _ _ _ Hd Hm) as [_ ->].
  induction (rows left) as [| l ls IH]; [constructor |].
  cbn [flat_map].
  pose proof (filter_key_le_1 (instant key) (instant key l) (rows right) Hu) as Hle.
  destruct (filter _ (rows right)) as [| r1 [| r2 rs]] eqn:Hf; simpl in Hle; [| | lia].
  - simpl. constructor; [| done]. split; [done |]. done.
  - simpl. constructor; [| done]. split; [apply map_union_subseteq_l |].
    intros Hnone. exfalso. apply (Hnone r1).
    + eapply list_elem_of_filter. rewrite Hf. left.
    + assert (Hin : r1 ∈ filter (λ r : row, instant key r = instant key l) (rows right))
        by (rewrite Hf; left).
      by apply list_elem_of_filter in Hin as [? _].
Qed.

(** X9. When the day-ahead table, the weather table and the intraday
    table share no column but the key, every row of the merged table holds
    the cells of the intraday row of its place, unchanged; and an intraday
    row whose key is neither in the day-ahead table nor in the weather
    table is in the merged table as it was, the cells of the other columns
    missing. *)
Theorem merge_carries_intraday_rows (ida_all dam_all weather merged : DataFrame) :
  unique_keys KEY dam_all → unique_keys KEY weather →
  disjoint_columns KEY ida_all dam_all →
  disjoint_columns KEY ida_all weather →
  disjoint_columns KEY dam_all weather →
  merge_tables ida_all dam_all weather = Ok merged →
  Forall2 (λ l m : row,
             l ⊆ m
             ∧ ((∀ r, r ∈ rows dam_all ∨ r ∈ rows weather → instant KEY r ≠ instant KEY l) →
                m = l))
          (rows ida_all) (rows merged).
Proof.
  intros Hud Huw Hid Hiw Hdw. unfold merge_tables.
  destruct (negb (empty dam_all)) eqn:He.
  - destruct (merge_left KEY ida_all dam_all) as [joined | e] eqn:Hj; [| done]. simpl.
    intros Hm.
    assert (Hjw : disjoint_columns KEY joined weather).
    { intros c Hc Hw. destruct (merge_left_disjoint _ _ _ _ Hid Hj) as [Hnames _].
      destruct (Hnames c Hc); [by apply Hiw | by apply Hdw]. }
    pose proof (merge_left_carries _ _ _ _ Hid Hud Hj) as H1.
    pose proof (merge_left_carries _ _ _ _ Hjw Huw Hm) as H2.
    pose proof (merge_left_keys _ _ _ Hud Hj) as Hkeys.
    clear Hj Hm.
    revert H2 Hkeys. generalize (rows merged). clear merged.
    induction H1 as [| l j ls js [Hlj Hsame] _ IH]; intros ms H2 Hkeys.
    + inversion H2. constructor.
    + inversion H2 as [| j' m js' ms' [Hjm Hsame'] H2']; subst.
      injection Hkeys as Hk Hkeys.
      constructor; [| by apply IH]. split; [by etrans |].
      intros Hnone. rewrite Hsame'.
      * apply Hsame. intros r Hr. apply Hnone. by left.
      * intros r Hr. rewrite Hk. apply Hnone. by right.
  - simpl. intros Hm.
    pose proof (merge_left_carries _ _ _ _ Hiw Huw Hm) as H.
    eapply Forall2_impl; [exact H |]. intros l m [Hlm Hsame]. split; [done |].
    intros Hnone. apply Hsame. intros r Hr. apply Hnone. by right.
Qed.

Lemma merge_carries_intraday_rows_witness :
  ∃ merged,
    merge_tables (load_all_idas Sample.coerce Sample.idas_dir Sample.the_day Sample.the_day)
                 Sample.dam_result Sample.weather_result = Ok merged
    ∧ Forall2 (λ l m : row, l ⊆ m)
        (rows (load_all_idas Sample.coerce Sample.idas_dir Sample.the_day Sample.the_day))
        (rows merged).
Proof.
  destruct (merge_tables
              (load_all_idas Sample.coerce Sample.idas_dir Sample.the_day Sample.the_day)
              Sample.dam_result Sample.weather_result) as [merged | e] eqn:Hm;
    [| vm_compute in Hm; discriminate Hm].
  exists merged. split; [reflexivity |].
  assert (Hida : names (load_all_idas Sample.coerce Sample.idas_dir
                          Sample.the_day Sample.the_day)
                 = [KEY; "PRICE"; "AUCTION"]) by (vm_compute; reflexivity).
  eapply Forall2_impl;
    [apply (merge_carries_intraday_rows _ Sample.dam_result Sample.weather_result merged) |].
  - apply (bool_decide_unpack _). vm_compute. exact I.
  - apply (bool_decide_unpack _). vm_compute. exact I.
  - intros c. rewrite Hida. unfold names; cbn. rewrite !elem_of_cons, !elem_of_nil.
    intros [-> | [-> | [-> | []]]] [H | [H | []]]; done.
  - intros c. rewrite Hida. unfold names; cbn. rewrite !elem_of_cons, !elem_of_nil.
    intros [-> | [-> | [-> | []]]] [H | [H | []]]; done.
  - intros c. unfold names; cbn. rewrite !elem_of_cons, !elem_of_nil.
    intros [-> | [-> | []]] [H | [H | []]]; done.
  - exact Hm.
  - intros l m [H _]. exact H.
Defined.

(** ** The aggregates across the sites and the first differences *)





Lemma delta_bases_cases b :
  b ∈ delta_bases →
  b = "AGG__mean__wind_speed_10m" ∨ b = "AGG__mean__shortwave_radiation"
  ∨ b = "AGG__mean__cloud_cover".
Proof. unfold delta_bases. rewrite !elem_of_cons, elem_of_nil. tauto. Qed.


Ltac late_cases H :=
  destruct H as [(b & [-> | [-> | ->]]%delta_bases_cases & H)
                | [(b & w & [-> | ->]%rolling_bases_cases & [H | H])
                  | H]];
  [.. | rewrite !elem_of_cons, elem_of_nil in H; destruct H as [H | [H | [H | []]]]];
  roll_names.


Lemma day_mask_not_late : ¬ late_name "AGG__mean__is_day".
Proof. intros H. late_cases H. Qed.

(** *** The aggregates across the sites *)















(** *** The first differences *)








